(** * auth0_import_export: reconciliation of an Auth0 user export with
      its password-hash export

    A shallow embedding of [auth0_import_export.py].  The Python values
    the program handles are the ones [json.loads] produces; dictionaries
    keep their insertion order, as Python's do, and are association
    lists; an uncaught exception or a call of [exit] ends the run. *)

From Stdlib Require Import ZArith NArith List String Ascii Bool Lia.
Import ListNotations.
Local Open Scope string_scope.
Local Open Scope Z_scope.

Set Implicit Arguments.
Set Warnings "-register-all".

(* ------------------------------------------------------------------ *)
(** ** Python floats, as far as [json.loads] and [==] need them *)

(** A double is NaN, an infinity, or [(-1)^neg * m * 2^e]. *)
Inductive pyfloat :=
| FNan
| FInf (neg : bool)
| FFin (neg : bool) (m : N) (e : Z).

Module Float.

(** Trailing zero bits of the significand go to the exponent, so
    that a value has one representation. *)
Fixpoint strip (p : positive) (e : Z) : positive * Z :=
  match p with
  | xO p' => strip p' (e + 1)
  | _ => (p, e)
  end.

Definition canon (f : pyfloat) : pyfloat :=
  match f with
  | FFin neg N0 _ => FFin neg 0 0
  | FFin neg (Npos p) e => let '(p', e') := strip p e in FFin neg (Npos p') e'
  | _ => f
  end.

Definition round_half_even (n d : Z) : Z :=
  let q := n / d in
  let r := n mod d in
  if 2 * r <? d then q
  else if d <? 2 * r then q + 1
  else if Z.even q then q else q + 1.

(** [float(text)] for the decimal [digits * 10^exp10], correctly
    rounded to the nearest double, ties to even. *)
Definition of_decimal (neg : bool) (digits exp10 : Z) : pyfloat :=
  if digits <=? 0 then FFin neg 0 0
  else
    let n := digits * 10 ^ Z.max exp10 0 in
    let d := 10 ^ Z.max (- exp10) 0 in
    let k0 := Z.log2 n - Z.log2 d in
    let k := if d * 2 ^ Z.max k0 0 <=? n * 2 ^ Z.max (- k0) 0
             then k0 else k0 - 1 in
    let q := Z.max (k - 52) (-1074) in
    let mant := round_half_even (n * 2 ^ Z.max (- q) 0) (d * 2 ^ Z.max q 0) in
    if 2 ^ 1024 * 2 ^ Z.max (- q) 0 <=? mant * 2 ^ Z.max q 0 then FInf neg
    else canon (FFin neg (Z.to_N mant) q).

Definition is_zero (f : pyfloat) : bool :=
  match f with
  | FFin _ N0 _ => true
  | _ => false
  end.

End Float.

(* ------------------------------------------------------------------ *)
(** ** Python objects *)

Inductive pyobj :=
| PyNone
| PyBool (b : bool)
| PyInt (z : Z)
| PyFloat (f : pyfloat)
| PyStr (s : string)
| PyList (l : list pyobj)
| PyDict (d : list (string * pyobj)).

(** A [dict] whose keys are strings: what a JSON object becomes. *)
Abbreviation record := (list (string * pyobj)).

Inductive exn :=
| KeyError (key : pyobj)
| TypeError
| AttributeError
| StopIteration
| JSONDecodeError
| RecursionError
| SystemExit (code : Z).

Inductive res (A : Type) :=
| Ok (a : A)
| Raise (e : exn).
Arguments Ok {A} a.
Arguments Raise {A} e.

Definition bind {A B} (m : res A) (k : A -> res B) : res B :=
  match m with
  | Ok a => k a
  | Raise e => Raise e
  end.

Notation "x <- m ;; k" := (bind m (fun x => k))
  (at level 61, m at next level, right associativity).

(* ------------------------------------------------------------------ *)
(** ** Dictionaries in insertion order *)

Section Dict.
Variables K V : Type.
Variable eqb : K -> K -> bool.

(** [d.get(k)] *)
Fixpoint dict_get (d : list (K * V)) (k : K) : option V :=
  match d with
  | [] => None
  | (k', v) :: d' => if eqb k' k then Some v else dict_get d' k
  end.

(** [d[k] = v]: a key already there keeps its place (and the key
    object stored first), a new one goes to the end. *)
Fixpoint dict_set (d : list (K * V)) (k : K) (v : V) : list (K * V) :=
  match d with
  | [] => [(k, v)]
  | (k', v') :: d' =>
      if eqb k' k then (k', v) :: d' else (k', v') :: dict_set d' k v
  end.

(** What is left of [d] after [d.pop(k)]. *)
Fixpoint dict_del (d : list (K * V)) (k : K) : list (K * V) :=
  match d with
  | [] => []
  | (k', v') :: d' =>
      if eqb k' k then dict_del d' k else (k', v') :: dict_del d' k
  end.

End Dict.

(** The operations on records. *)
Definition get (d : record) (k : string) : option pyobj :=
  dict_get String.eqb d k.
Definition set (d : record) (k : string) (v : pyobj) : record :=
  dict_set String.eqb d k v.
Definition del (d : record) (k : string) : record :=
  dict_del String.eqb d k.

(** [d[k]] *)
Definition getitem (d : record) (k : string) : res pyobj :=
  match get d k with
  | Some v => Ok v
  | None => Raise (KeyError (PyStr k))
  end.

(** [d.pop(k)]: the value and the dictionary without the key. *)
Definition pop (d : record) (k : string) : res (pyobj * record) :=
  match get d k with
  | Some v => Ok (v, del d k)
  | None => Raise (KeyError (PyStr k))
  end.

(** [d.pop(k, None)] *)
Definition pop_default (d : record) (k : string) : pyobj * record :=
  match get d k with
  | Some v => (v, del d k)
  | None => (PyNone, d)
  end.

(* ------------------------------------------------------------------ *)
(** ** Equality, hashing and truth of Python objects *)

(** The value a hashable object is compared by when it is a dictionary
    key: [True], [1] and [1.0] are one key, as are [0], [False], [0.0]
    and [-0.0]. *)
Inductive pykey :=
| KNone
| KInt (z : Z)
| KFloat (f : pyfloat)
| KStr (s : string).

Definition float_key (f : pyfloat) : pykey :=
  match Float.canon f with
  | FFin neg m e =>
      if 0 <=? e then KInt ((if neg then -1 else 1) * Z.of_N m * 2 ^ e)
      else KFloat (FFin neg m e)
  | g => KFloat g
  end.

(** [None] for the unhashable objects, lists and dictionaries. *)
Definition key_of (o : pyobj) : option pykey :=
  match o with
  | PyNone => Some KNone
  | PyBool b => Some (KInt (if b then 1 else 0))
  | PyInt z => Some (KInt z)
  | PyFloat f => Some (float_key f)
  | PyStr s => Some (KStr s)
  | PyList _ | PyDict _ => None
  end.

Definition pyfloat_eqb (f g : pyfloat) : bool :=
  match f, g with
  | FNan, FNan => true
  | FInf a, FInf b => Bool.eqb a b
  | FFin a m e, FFin b n k => Bool.eqb a b && N.eqb m n && Z.eqb e k
  | _, _ => false
  end.

Definition pykey_eqb (a b : pykey) : bool :=
  match a, b with
  | KNone, KNone => true
  | KInt x, KInt y => Z.eqb x y
  | KFloat f, KFloat g => pyfloat_eqb f g
  | KStr s, KStr t => String.eqb s t
  | _, _ => false
  end.

(** [PyObject_RichCompareBool(a, b, Py_EQ)], the comparison containers
    and dictionary lookups use: an object equals itself, and the one
    NaN object [json.loads] hands out is such a case; apart from that
    it is [==].  Dictionaries compare without regard to order. *)
Fixpoint eq_bool (a b : pyobj) {struct a} : bool :=
  match a, b with
  | PyList l, PyList m =>
      (fix elems (l m : list pyobj) : bool :=
         match l, m with
         | [], [] => true
         | x :: l', y :: m' => eq_bool x y && elems l' m'
         | _, _ => false
         end) l m
  | PyDict d, PyDict e =>
      Nat.eqb (List.length d) (List.length e) &&
      (fix items (d : record) : bool :=
         match d with
         | [] => true
         | (k, v) :: d' =>
             match get e k with
             | Some w => eq_bool v w
             | None => false
             end && items d'
         end) d
  | _, _ =>
      match key_of a, key_of b with
      | Some x, Some y => pykey_eqb x y
      | _, _ => false
      end
  end.

(** [a == b] *)
Definition py_eq (a b : pyobj) : bool :=
  match a, b with
  | PyFloat FNan, _ | _, PyFloat FNan => false
  | _, _ => eq_bool a b
  end.

(** [bool(o)], the test of [if o:] *)
Definition truthy (o : pyobj) : bool :=
  match o with
  | PyNone => false
  | PyBool b => b
  | PyInt z => negb (z =? 0)
  | PyFloat f => negb (Float.is_zero f)
  | PyStr s => negb (String.eqb s "")
  | PyList l => negb (Nat.eqb (List.length l) 0)
  | PyDict d => negb (Nat.eqb (List.length d) 0)
  end.

(** Equality of two dictionary keys. *)
Definition key_eqb (a b : pyobj) : bool :=
  match key_of a, key_of b with
  | Some x, Some y => pykey_eqb x y
  | _, _ => false
  end.

(** A dictionary from hashable objects to records: the two indexes. *)
Abbreviation index := (list (pyobj * record)).

Definition index_get (d : index) (k : pyobj) : option record :=
  dict_get key_eqb d k.

(** [d[k] = v]; a list or a dictionary is no key. *)
Definition index_set (d : index) (k : pyobj) (v : record) : res index :=
  match key_of k with
  | Some _ => Ok (dict_set key_eqb d k v)
  | None => Raise TypeError
  end.

(* ------------------------------------------------------------------ *)
(** ** The [json] module: [json.loads]

    The decoder of the Python standard library, for the default
    options: the grammar of [json.scanner] and [json.decoder], with
    NaN and the infinities accepted and control characters refused
    inside strings.  A [str] is held as its UTF-8 bytes.  Every
    syntax error is the one exception [JSONDecodeError].  The limits
    of the interpreter (the depth of recursion, the number of digits
    of an [int] literal) are not part of the model.

    The scanners take fuel, one unit for every call; [loads] gives
    them more than a text can use ([json_total.loads_fuel]). *)

Module json.

Inductive scan (A : Type) :=
| Scanned (a : A) (rest : string)
| Invalid
| Exhausted.
Arguments Scanned {A} a rest.
Arguments Invalid {A}.
Arguments Exhausted {A}.

Definition code (c : ascii) : N := N_of_ascii c.

(** [WHITESPACE = [ \t\n\r]*] *)
Definition is_ws (c : ascii) : bool :=
  let n := code c in
  (N.eqb n 32 || N.eqb n 9 || N.eqb n 10 || N.eqb n 13)%bool.

Fixpoint skip_ws (s : string) : string :=
  match s with
  | String c s' => if is_ws c then skip_ws s' else s
  | EmptyString => s
  end.

Definition is_digit (c : ascii) : bool :=
  let n := code c in (N.leb 48 n && N.leb n 57)%bool.

Definition digit_val (c : ascii) : Z := Z.of_N (code c) - 48.

Definition hex_val (c : ascii) : option N :=
  let n := code c in
  if (N.leb 48 n && N.leb n 57)%bool then Some (n - 48)%N
  else if (N.leb 65 n && N.leb n 70)%bool then Some (n - 55)%N
  else if (N.leb 97 n && N.leb n 102)%bool then Some (n - 87)%N
  else None.

(** The four hexadecimal digits of a [\uXXXX] escape. *)
Definition hex4 (s : string) : option (N * string) :=
  match s with
  | String a (String b (String c (String d r))) =>
      match hex_val a, hex_val b, hex_val c, hex_val d with
      | Some x, Some y, Some z, Some w =>
          Some (((x * 16 + y) * 16 + z) * 16 + w, r)%N
      | _, _, _, _ => None
      end
  | _ => None
  end.

Definition byte (n : N) : string := String (ascii_of_N n) "".

(** [chr(cp)], in UTF-8. *)
Definition utf8 (cp : N) : string :=
  (if cp <? 128 then byte cp
   else if cp <? 2048 then
     byte (192 + cp / 64) ++ byte (128 + cp mod 64)
   else if cp <? 65536 then
     byte (224 + cp / 4096) ++ byte (128 + (cp / 64) mod 64)
     ++ byte (128 + cp mod 64)
   else
     byte (240 + cp / 262144) ++ byte (128 + (cp / 4096) mod 64)
     ++ byte (128 + (cp / 64) mod 64) ++ byte (128 + cp mod 64))%N%string.

(** [BACKSLASH]: the one-character escapes. *)
Definition escape (c : ascii) : option string :=
  let n := code c in
  if N.eqb n 34 then Some (byte 34)        (* quote *)
  else if N.eqb n 92 then Some (byte 92)   (* backslash *)
  else if N.eqb n 47 then Some (byte 47)   (* slash *)
  else if N.eqb n 98 then Some (byte 8)    (* backspace *)
  else if N.eqb n 102 then Some (byte 12)  (* form feed *)
  else if N.eqb n 110 then Some (byte 10)  (* line feed *)
  else if N.eqb n 114 then Some (byte 13)  (* carriage return *)
  else if N.eqb n 116 then Some (byte 9)   (* tab *)
  else None.

(** [scanstring], from behind the opening quote, in strict mode. *)
Fixpoint scanstring (fuel : nat) (s acc : string) : scan string :=
  match fuel with
  | O => Exhausted
  | S fuel' =>
      match s with
      | EmptyString => Invalid
      | String c s' =>
          if N.eqb (code c) 34 then Scanned acc s'
          else if N.eqb (code c) 92 then
            match s' with
            | EmptyString => Invalid
            | String e s'' =>
                match escape e with
                | Some ch => scanstring fuel' s'' (acc ++ ch)
                | None =>
                    if N.eqb (code e) 117 then
                      match hex4 s'' with
                      | None => Invalid
                      | Some (uni, r) =>
                          if (N.leb 55296 uni && N.leb uni 56319)%bool then
                            match r with
                            | String b1 (String b2 r2) =>
                                if (N.eqb (code b1) 92 && N.eqb (code b2) 117)%bool then
                                  match hex4 r2 with
                                  | None => Invalid
                                  | Some (uni2, r3) =>
                                      if (N.leb 56320 uni2 && N.leb uni2 57343)%bool then
                                        scanstring fuel' r3
                                          (acc ++ utf8 (65536 + ((uni - 55296) * 1024
                                                                 + (uni2 - 56320))))%N
                                      else scanstring fuel' r (acc ++ utf8 uni)
                                  end
                                else scanstring fuel' r (acc ++ utf8 uni)
                            | _ => scanstring fuel' r (acc ++ utf8 uni)
                            end
                          else scanstring fuel' r (acc ++ utf8 uni)
                      end
                    else Invalid
                end
            end
          else if N.ltb (code c) 32 then Invalid
          else scanstring fuel' s' (acc ++ String c "")
      end
  end.

(** A run of decimal digits: its value, its length, and the rest. *)
Fixpoint digits (s : string) (acc : Z) (n : Z) : Z * Z * string :=
  match s with
  | String c s' =>
      if is_digit c then digits s' (acc * 10 + digit_val c) (n + 1)
      else (acc, n, s)
  | EmptyString => (acc, n, s)
  end.

Definition starts_with_digit (s : string) : bool :=
  match s with
  | String c _ => is_digit c
  | EmptyString => false
  end.

(** [NUMBER_RE]: an optional minus sign, then either a single 0 or
    a nonzero digit and more digits; then, if there, a point and one
    digit or more; then, if there, e or E, an optional sign and one
    digit or more.  An integer literal is an [int], one with a
    fraction or an exponent a [float]. *)
Definition match_number (s : string) : option (pyobj * string) :=
  let '(neg, s1) :=
    match s with
    | String c r => if N.eqb (code c) 45 then (true, r) else (false, s)
    | EmptyString => (false, s)
    end in
  match s1 with
  | String c r =>
      if is_digit c then
        let '(ip, _, r1) :=
          if N.eqb (code c) 48 then (0, 1, r) else digits s1 0 0 in
        let '(fv, fn, r2, has_frac) :=
          match r1 with
          | String d r' =>
              if (N.eqb (code d) 46 && starts_with_digit r')%bool
              then let '(v, n, r'') := digits r' 0 0 in (v, n, r'', true)
              else (0, 0, r1, false)
          | EmptyString => (0, 0, r1, false)
          end in
        let '(ev, r3, has_exp) :=
          match r2 with
          | String e r' =>
              if (N.eqb (code e) 101 || N.eqb (code e) 69)%bool then
                match r' with
                | String sg r'' =>
                    if (N.eqb (code sg) 45 && starts_with_digit r'')%bool
                    then let '(v, _, t) := digits r'' 0 0 in (- v, t, true)
                    else if (N.eqb (code sg) 43 && starts_with_digit r'')%bool
                    then let '(v, _, t) := digits r'' 0 0 in (v, t, true)
                    else if is_digit sg
                    then let '(v, _, t) := digits r' 0 0 in (v, t, true)
                    else (0, r2, false)
                | EmptyString => (0, r2, false)
                end
              else (0, r2, false)
          | EmptyString => (0, r2, false)
          end in
        if (has_frac || has_exp)%bool
        then Some (PyFloat (Float.of_decimal neg (ip * 10 ^ fn + fv) (ev - fn)), r3)
        else Some (PyInt (if neg then - ip else ip), r3)
      else None
  | EmptyString => None
  end.

(** [s[n:]] *)
Fixpoint drop (n : nat) (s : string) : string :=
  match n, s with
  | S n', String _ s' => drop n' s'
  | _, _ => s
  end.

Definition literal (lit : string) (v : pyobj) (s : string) : option (pyobj * string) :=
  if String.prefix lit s then Some (v, drop (String.length lit) s) else None.

(** The scalars [scan_once] tries after strings, objects and arrays,
    in its order. *)
Definition scan_scalar (s : string) : scan pyobj :=
  let first f g := match f with Some x => Some x | None => g end in
  match
    first (literal "null" PyNone s)
    (first (literal "true" (PyBool true) s)
    (first (literal "false" (PyBool false) s)
    (first (match_number s)
    (first (literal "NaN" (PyFloat FNan) s)
    (first (literal "Infinity" (PyFloat (FInf false)) s)
           (literal "-Infinity" (PyFloat (FInf true)) s))))))
  with
  | Some (v, r) => Scanned v r
  | None => Invalid
  end.

Definition is_char (n : N) (s : string) : bool :=
  match s with
  | String c _ => N.eqb (code c) n
  | EmptyString => false
  end.

(** [scan_once], with [JSONObject] and [JSONArray] from behind the
    opening bracket and, in the loops, from a member on. *)
Fixpoint scan_once (fuel : nat) (s : string) : scan pyobj :=
  match fuel with
  | O => Exhausted
  | S fuel' =>
      match s with
      | EmptyString => Invalid
      | String c r =>
          if N.eqb (code c) 34 then
            match scanstring (S (String.length r)) r "" with
            | Scanned str r' => Scanned (PyStr str) r'
            | Invalid => Invalid
            | Exhausted => Exhausted
            end
          else if N.eqb (code c) 123 then
            let r := skip_ws r in
            if is_char 125 r then Scanned (PyDict []) (drop 1 r)
            else object_items fuel' r []
          else if N.eqb (code c) 91 then
            let r := skip_ws r in
            if is_char 93 r then Scanned (PyList []) (drop 1 r)
            else array_items fuel' r []
          else scan_scalar s
      end
  end
with object_items (fuel : nat) (s : string) (acc : record) : scan pyobj :=
  match fuel with
  | O => Exhausted
  | S fuel' =>
      if is_char 34 s then
        match scanstring (String.length s) (drop 1 s) "" with
        | Scanned key r =>
            let r := skip_ws r in
            if is_char 58 r then
              match scan_once fuel' (skip_ws (drop 1 r)) with
              | Scanned v r =>
                  let acc := set acc key v in
                  let r := skip_ws r in
                  if is_char 125 r then Scanned (PyDict acc) (drop 1 r)
                  else if is_char 44 r then
                    object_items fuel' (skip_ws (drop 1 r)) acc
                  else Invalid
              | Invalid => Invalid
              | Exhausted => Exhausted
              end
            else Invalid
        | Invalid => Invalid
        | Exhausted => Exhausted
        end
      else Invalid
  end
with array_items (fuel : nat) (s : string) (acc : list pyobj) : scan pyobj :=
  match fuel with
  | O => Exhausted
  | S fuel' =>
      match scan_once fuel' s with
      | Scanned v r =>
          let acc := (acc ++ [v])%list in
          let r := skip_ws r in
          if is_char 93 r then Scanned (PyList acc) (drop 1 r)
          else if is_char 44 r then array_items fuel' (skip_ws (drop 1 r)) acc
          else Invalid
      | Invalid => Invalid
      | Exhausted => Exhausted
      end
  end.

(** [json.loads(s)]: one value, white space around it, nothing
    after it; a leading byte-order mark is refused. *)
Definition loads (s : string) : res pyobj :=
  if String.prefix (byte 239 ++ byte 187 ++ byte 191) s then Raise JSONDecodeError
  else
    match scan_once (2 * String.length s + 1) (skip_ws s) with
    | Scanned v r =>
        if String.eqb (skip_ws r) "" then Ok v else Raise JSONDecodeError
    | Invalid => Raise JSONDecodeError
    | Exhausted => Raise RecursionError
    end.

End json.

(* ------------------------------------------------------------------ *)
(** ** What a run prints, and how it ends *)

Inductive event :=
| Stderr (s : string)             (* print(s, file=sys.stderr) *)
| StderrObj (o : pyobj)           (* print(o, file=sys.stderr) *)
| StdoutJson (o : list record).   (* print(json.dumps(o, indent=2)) *)

(** A computation that prints and then returns or raises; [exit(n)]
    raises [SystemExit n]. *)
Definition io (A : Type) : Type := (list event * res A)%type.

Definition ret {A} (a : A) : io A := ([], Ok a).

Definition io_bind {A B} (m : io A) (k : A -> io B) : io B :=
  match m with
  | (out, Ok a) => let '(out', r) := k a in ((out ++ out')%list, r)
  | (out, Raise e) => (out, Raise e)
  end.

Notation "x <<- m ;; k" := (io_bind m (fun x => k))
  (at level 61, m at next level, right associativity).
Notation "m ;;; k" := (io_bind m (fun _ => k))
  (at level 61, right associativity).

Definition lift {A} (r : res A) : io A := ([], r).
Definition print_err (s : string) : io unit := ([Stderr s], Ok tt).
Definition print_err_obj (o : pyobj) : io unit := ([StderrObj o], Ok tt).
Definition print_json (o : list record) : io unit := ([StdoutJson o], Ok tt).
Definition exit {A} (code : Z) : io A := ([], Raise (SystemExit code)).

(** [if c: body] *)
Definition when (c : bool) (body : io unit) : io unit :=
  if c then body else ret tt.

Fixpoint for_each {A} (l : list A) (body : A -> io unit) : io unit :=
  match l with
  | [] => ret tt
  | x :: l' => body x ;;; for_each l' body
  end.

(** The exit status of the process: 0 after a return, the argument of
    [exit] (as the operating system truncates it), 1 after an uncaught
    exception. *)
Definition status {A} (r : io A) : Z :=
  match snd r with
  | Ok _ => 0
  | Raise (SystemExit code) => code mod 256
  | Raise _ => 1
  end.

(** What reached the primary output. *)
Definition stdout {A} (r : io A) : list (list record) :=
  flat_map (fun e => match e with StdoutJson o => [o] | _ => [] end) (fst r).

(* ------------------------------------------------------------------ *)
(** ** The program *)

(** The users export, as [gzip.open] finds it: a gzip stream, or
    ([BadGzipFile]) a text file; either way its lines, as
    [readlines] returns them.  A file that cannot be opened or decoded
    is not part of the model. *)
Inductive users_export :=
| Gzip (lines : list string)
| PlainUsers (lines : list string).

(** The hashes export: a zip archive with its members, or
    ([BadZipFile]) a text file. *)
Inductive hashes_export :=
| Zip (members : list (list string))
| PlainHashes (lines : list string).

Definition get_user_lines (users_file : users_export) : list string :=
  match users_file with
  | Gzip lines => lines
  | PlainUsers lines => lines
  end.

Definition verify_valid_ndjson_lines (ndjson_lines : list string) : res bool :=
  let output_json := "[" ++ String.concat "," ndjson_lines ++ "]" in
  match json.loads output_json with
  | Ok _ => Ok true
  | Raise JSONDecodeError => Ok false
  | Raise e => Raise e
  end.

Definition get_hash_lines (hashes_file_path : string) (hashes_file : hashes_export)
  : io (list string) :=
  match hashes_file with
  | Zip file_names =>
      match file_names with
      | [lines] => ret lines
      | _ =>
          print_err ("The zip file with the hash export should contain exactly one file: "
                     ++ hashes_file_path) ;;;
          exit (-1)
      end
  | PlainHashes lines => ret lines
  end.

(** The loop shared by the two indexers:
    [for line in lines: j = json.loads(line); d[j[field]] = j].
    Only a [dict] can be subscripted by a string. *)
Fixpoint index_lines (field : string) (lines : list string) (d : index) : res index :=
  match lines with
  | [] => Ok d
  | line :: lines' =>
      j <- json.loads line ;;
      match j with
      | PyDict user_json =>
          email <- getitem user_json field ;;
          d' <- index_set d email user_json ;;
          index_lines field lines' d'
      | _ => Raise TypeError
      end
  end.

Definition get_user_info_by_email (users_file_path : string) (users_file : users_export)
  : io index :=
  let user_lines := get_user_lines users_file in
  valid <<- lift (verify_valid_ndjson_lines user_lines) ;;
  when (negb valid)
    (print_err ("The users export file contains invalid json (ndjson) content: "
                ++ users_file_path) ;;;
     exit (-1)) ;;;
  lift (index_lines "Email" user_lines []).

Definition get_password_hashes_by_email (hashes_file_path : string)
  (hashes_file : hashes_export) : io index :=
  hash_lines <<- get_hash_lines hashes_file_path hashes_file ;;
  valid <<- lift (verify_valid_ndjson_lines hash_lines) ;;
  when (negb valid)
    (print_err ("The password hash export file contains invalid json (ndjson) content: "
                ++ hashes_file_path) ;;;
     exit (-1)) ;;;
  lift (index_lines "email" hash_lines []).

(** [next(iter(d.items()))[1]['connection']] *)
Definition get_auth0_db_name (password_hashes_by_email : index) : res pyobj :=
  match password_hashes_by_email with
  | [] => Raise StopIteration
  | (_, a_hash_entry) :: _ => getitem a_hash_entry "connection"
  end.

(** [s[6:] if s.startswith('auth0|') else s] *)
Definition strip_auth0 (user_id : string) : string :=
  if String.prefix "auth0|" user_id then json.drop 6 user_id else user_id.

(** Lines 131-146 of the loop body: the renaming of the fields of one
    [user_info], in place. *)
Definition rename_fields (user_info : record) : res record :=
  p <- pop user_info "Email" ;;
  let user_info := set (snd p) "email" (fst p) in
  p <- pop user_info "Email Verified" ;;
  let user_info := set (snd p) "email_verified" (fst p) in
  let '(given_name, user_info) := pop_default user_info "Given Name" in
  let user_info :=
    if truthy given_name then set user_info "given_name" given_name else user_info in
  let '(family_name, user_info) := pop_default user_info "Family Name" in
  let user_info :=
    if truthy family_name then set user_info "family_name" family_name else user_info in
  p <- pop user_info "Name" ;;
  let user_info := set (snd p) "name" (fst p) in
  let user_info :=
    set user_info "connection"
      (match get user_info "Connection" with Some c => c | None => PyNone end) in
  p <- pop user_info "Id" ;;
  match fst p with
  | PyStr user_id => Ok (set (snd p) "id" (PyStr (strip_auth0 user_id)))
  | _ => Raise AttributeError
  end.

(** [d[k]] on an index. *)
Definition index_getitem (d : index) (k : pyobj) : res record :=
  match key_of k with
  | None => Raise TypeError
  | Some _ =>
      match index_get d k with
      | Some v => Ok v
      | None => Raise (KeyError k)
      end
  end.

(** One turn of the loop of lines 129-166, on the two lists it
    appends to. *)
Definition loop_body (database_name : pyobj) (password_hashes_by_email : index)
  (acc : list record * list pyobj) (item : pyobj * record)
  : res (list record * list pyobj) :=
  let '(output, users_with_missing_passwords) := acc in
  let '(email, user_info) := item in
  user_info <- rename_fields user_info ;;
  connection <- getitem user_info "Connection" ;;
  if py_eq connection database_name then
    match index_getitem password_hashes_by_email email with
    | Raise (KeyError _) =>
        Ok ((output ++ [user_info])%list, (users_with_missing_passwords ++ [email])%list)
    | Raise e => Raise e
    | Ok password_hash_info =>
        password_hash <- getitem password_hash_info "passwordHash" ;;
        Ok ((output ++ [set user_info "password_hash" password_hash])%list,
            users_with_missing_passwords)
    end
  else Ok acc.

Fixpoint loop (database_name : pyobj) (password_hashes_by_email : index)
  (items : index) (acc : list record * list pyobj) : res (list record * list pyobj) :=
  match items with
  | [] => Ok acc
  | item :: items' =>
      acc' <- loop_body database_name password_hashes_by_email acc item ;;
      loop database_name password_hashes_by_email items' acc'
  end.

(** Lines 124-166: from the two indexes to the output list and the
    list of the users whose hash is missing. *)
Definition reconcile (user_info_by_email password_hashes_by_email : index)
  : res (list record * list pyobj) :=
  database_name <- get_auth0_db_name password_hashes_by_email ;;
  loop database_name password_hashes_by_email user_info_by_email ([], []).

Definition is_empty (d : index) : bool :=
  match d with [] => true | _ => false end.

Definition create_auth0_import (users_file_path hashes_file_path : string)
  (users_file : users_export) (hashes_file : hashes_export) : io unit :=
  user_info_by_email <<- get_user_info_by_email users_file_path users_file ;;
  when (is_empty user_info_by_email)
    (print_err ("No users found in the file: " ++ users_file_path) ;;; exit 0) ;;;
  password_hashes_by_email <<-
    get_password_hashes_by_email hashes_file_path hashes_file ;;
  when (is_empty user_info_by_email)
    (print_err ("No password hashes found in the file: " ++ hashes_file_path) ;;;
     exit 0) ;;;
  r <<- lift (reconcile user_info_by_email password_hashes_by_email) ;;
  let '(output, users_with_missing_passwords) := r in
  print_json output ;;;
  when (negb (Nat.eqb (List.length users_with_missing_passwords) 0))
    (print_err "The following users were missing from the password hash file:" ;;;
     for_each users_with_missing_passwords print_err_obj).

(** An index as the indexers build it: every record is filed under
    the value of its key field, and no key occurs twice. *)
Fixpoint index_wf (field : string) (d : index) : bool :=
  match d with
  | [] => true
  | (k, r) :: d' =>
      match get r field with
      | Some e => key_eqb e k
      | None => false
      end
      && negb (existsb (fun kr => key_eqb (fst kr) k) d')
      && index_wf field d'
  end.

(** What one [(email, user_info)] item adds to the output list and to
    the list of the users whose hash is missing. *)
Inductive contributes (database_name : pyobj) (hashes : index)
  : pyobj * record -> list record * list pyobj -> Prop :=
| non_local email user_info r c :
    rename_fields user_info = Ok r ->
    get r "Connection" = Some c ->
    py_eq c database_name = false ->
    contributes database_name hashes (email, user_info) ([], [])
| missing_hash email user_info r c :
    rename_fields user_info = Ok r ->
    get r "Connection" = Some c ->
    py_eq c database_name = true ->
    key_of email <> None ->
    index_get hashes email = None ->
    contributes database_name hashes (email, user_info) ([r], [email])
| with_hash email user_info r c password_hash_info password_hash :
    rename_fields user_info = Ok r ->
    get r "Connection" = Some c ->
    py_eq c database_name = true ->
    key_of email <> None ->
    index_get hashes email = Some password_hash_info ->
    get password_hash_info "passwordHash" = Some password_hash ->
    contributes database_name hashes (email, user_info)
      ([set r "password_hash" password_hash], []).

(* ------------------------------------------------------------------ *)
(** ** Sample data *)

Module Sample.

(** The scenario of the specification: one local user with a hash. *)
Definition profile : record :=
  [("Email", PyStr "a@x.com"); ("Name", PyStr "A"); ("Id", PyStr "auth0|1");
   ("Connection", PyStr "Local"); ("Email Verified", PyBool true)].

Definition credential : record :=
  [("email", PyStr "a@x.com"); ("passwordHash", PyStr "h1");
   ("connection", PyStr "Local")].

Definition users : index := [(PyStr "a@x.com", profile)].
Definition hashes : index := [(PyStr "a@x.com", credential)].

(** The output record the specification gives for it. *)
Definition expected : record :=
  [("email", PyStr "a@x.com"); ("email_verified", PyBool true);
   ("name", PyStr "A"); ("connection", PyStr "Local"); ("id", PyStr "1");
   ("password_hash", PyStr "h1")].

(** The output record of the program. *)
Definition produced : record :=
  [("Connection", PyStr "Local"); ("email", PyStr "a@x.com");
   ("email_verified", PyBool true); ("name", PyStr "A");
   ("connection", PyStr "Local"); ("id", PyStr "1");
   ("password_hash", PyStr "h1")].

(** A JSON string literal: the text between two quotation marks. *)
Definition quoted (s : string) : string :=
  String (ascii_of_nat 34) s ++ String (ascii_of_nat 34) "".

Definition newline : string := String (ascii_of_nat 10) "".

(** The same two exports as the lines of the files. *)
Definition users_line : string :=
  "{" ++ quoted "Email" ++ ":" ++ quoted "a@x.com" ++ ","
      ++ quoted "Name" ++ ":" ++ quoted "A" ++ ","
      ++ quoted "Id" ++ ":" ++ quoted "auth0|1" ++ ","
      ++ quoted "Connection" ++ ":" ++ quoted "Local" ++ ","
      ++ quoted "Email Verified" ++ ":true}" ++ newline.

Definition hashes_line : string :=
  "{" ++ quoted "email" ++ ":" ++ quoted "a@x.com" ++ ","
      ++ quoted "passwordHash" ++ ":" ++ quoted "h1" ++ ","
      ++ quoted "connection" ++ ":" ++ quoted "Local" ++ "}" ++ newline.

(** Three users: a local one with a hash, one of a social connection
    (for whom the hashes file has an entry all the same), and a local
    one without a hash. *)
Definition social : record :=
  [("Email", PyStr "b@x.com"); ("Email Verified", PyBool true);
   ("Name", PyStr "B"); ("Id", PyStr "google-oauth2|xyz");
   ("Connection", PyStr "google-oauth2")].

Definition unhashed : record :=
  [("Email", PyStr "c@x.com"); ("Email Verified", PyBool false);
   ("Given Name", PyStr "C"); ("Family Name", PyStr "");
   ("Name", PyStr "C"); ("Id", PyStr "auth0|abc123");
   ("Connection", PyStr "Local")].

Definition three_users : index :=
  [(PyStr "a@x.com", profile); (PyStr "b@x.com", social);
   (PyStr "c@x.com", unhashed)].

Definition two_hashes : index :=
  [(PyStr "a@x.com", credential);
   (PyStr "b@x.com",
    [("email", PyStr "b@x.com"); ("passwordHash", PyStr "h2");
     ("connection", PyStr "Local")])].


(** A local user without a hash whose profile carries a field named
    [password_hash] of its own. *)
Definition carrying : record :=
  [("Email", PyStr "c@x.com"); ("Email Verified", PyBool true);
   ("Name", PyStr "C"); ("Id", PyStr "auth0|3"); ("Connection", PyStr "Local");
   ("password_hash", PyStr "old")].

Definition carrying_users : index := [(PyStr "c@x.com", carrying)].

(** A local user without a hash whose [Id] has another prefix. *)
Definition foreign_id : record :=
  [("Email", PyStr "d@x.com"); ("Email Verified", PyBool true);
   ("Name", PyStr "D"); ("Id", PyStr "google-oauth2|xyz");
   ("Connection", PyStr "Local")].

Definition foreign_id_users : index := [(PyStr "d@x.com", foreign_id)].

Definition foreign_id_output : record :=
  [("Connection", PyStr "Local"); ("email", PyStr "d@x.com");
   ("email_verified", PyBool true); ("name", PyStr "D");
   ("connection", PyStr "Local"); ("id", PyStr "google-oauth2|xyz")].

Definition unhashed_output : record :=
  [("Connection", PyStr "Local"); ("email", PyStr "c@x.com");
   ("email_verified", PyBool false); ("given_name", PyStr "C");
   ("name", PyStr "C"); ("connection", PyStr "Local");
   ("id", PyStr "abc123")].

Definition three_output : list record := [produced; unhashed_output].

(** One line that holds two objects, separated by a comma. *)
Definition two_objects : string :=
  "{" ++ quoted "a" ++ ":1},{" ++ quoted "b" ++ ":2}".

End Sample.

(* ------------------------------------------------------------------ *)
(** ** The script, and words for what the program does *)

Definition usage : string :=
  "Usage: python auth0_import_export.py <users_file_path> <hash_export_file_path>".

(** Lines 177-182: [sys.argv], and the files the file system has under
    the names given. *)
Definition main (argv : list string)
  (users_at : string -> users_export) (hashes_at : string -> hashes_export) : io unit :=
  match argv with
  | [_; users_file_path; hashes_file_path] =>
      create_auth0_import users_file_path hashes_file_path
        (users_at users_file_path) (hashes_at hashes_file_path)
  | _ => print_err usage ;;; exit 1
  end.

(** What lines 171-174 print. *)
Definition missing_report (users_with_missing_passwords : list pyobj) : list event :=
  match users_with_missing_passwords with
  | [] => []
  | _ => Stderr "The following users were missing from the password hash file:"
         :: map StderrObj users_with_missing_passwords
  end.

(** An exception that is not a call of [exit]. *)
Definition uncaught (e : exn) : Prop :=
  match e with SystemExit _ => False | _ => True end.

(** The keys the renaming reads, removes or writes. *)
Definition renamed_keys : list string :=
  ["Email"; "email"; "Email Verified"; "email_verified"; "Given Name"; "given_name";
   "Family Name"; "family_name"; "Name"; "name"; "connection"; "Id"; "id"].

(** A line an indexer takes: a JSON object that has the key field,
    with a value that can be a dictionary key. *)
Definition line_ok (field line : string) : Prop :=
  exists user_json email,
    json.loads line = Ok (PyDict user_json) /\
    get user_json field = Some email /\ key_of email <> None.

(** The keys of a sequence in the order of their first appearance,
    after those already seen. *)
Fixpoint first_keys (seen keys : list pyobj) : list pyobj :=
  match keys with
  | [] => []
  | k :: keys' =>
      if existsb (fun s => key_eqb s k) seen then first_keys seen keys'
      else k :: first_keys (seen ++ [k]) keys'
  end.

(** The records the lines decode to, each with the value of its key
    field. *)
Definition decoded (field : string) (lines : list string)
  (items : list (pyobj * record)) : Prop :=
  Forall2 (fun line item => json.loads line = Ok (PyDict (snd item)) /\
                            get (snd item) field = Some (fst item)) lines items.

(** The test of line 148, on an item of the index of the users. *)
Definition is_local (database_name : pyobj) (item : pyobj * record) : bool :=
  match get (snd item) "Connection" with
  | Some connection => py_eq connection database_name
  | None => false
  end.

Definition has_hash (hashes : index) (item : pyobj * record) : bool :=
  match index_get hashes (fst item) with
  | Some _ => true
  | None => false
  end.

(** The record of a local user as it is appended: renamed, and with
    the hash when the hashes have an entry. *)
Definition appended (hashes : index) (item : pyobj * record) (r : record) : Prop :=
  exists r0,
    rename_fields (snd item) = Ok r0 /\
    r = match index_get hashes (fst item) with
        | Some password_hash_info =>
            match get password_hash_info "passwordHash" with
            | Some password_hash => set r0 "password_hash" password_hash
            | None => r0
            end
        | None => r0
        end.

(** What the loop asks of an item of the index of the users. *)
Definition acceptable (database_name : pyobj) (hashes : index)
  (item : pyobj * record) : Prop :=
  (exists r0, rename_fields (snd item) = Ok r0) /\
  exists connection,
    get (snd item) "Connection" = Some connection /\
    (py_eq connection database_name = true ->
     key_of (fst item) <> None /\
     forall password_hash_info,
       index_get hashes (fst item) = Some password_hash_info ->
       get password_hash_info "passwordHash" <> None).

Module Cases.

(** A profile with a field of its own. *)
Definition nicknamed : record :=
  [("Email", PyStr "n@x.com"); ("Nickname", PyStr "Nick");
   ("Email Verified", PyBool true); ("Given Name", PyStr "N");
   ("Family Name", PyNone); ("Name", PyStr "N"); ("Id", PyStr "auth0|9");
   ("Connection", PyStr "Local")].

Definition nicknamed_renamed : record :=
  [("Nickname", PyStr "Nick"); ("Connection", PyStr "Local");
   ("email", PyStr "n@x.com"); ("email_verified", PyBool true);
   ("given_name", PyStr "N"); ("name", PyStr "N");
   ("connection", PyStr "Local"); ("id", PyStr "9")].

(** A profile without a name. *)
Definition nameless : record :=
  [("Email", PyStr "e@x.com"); ("Email Verified", PyBool true);
   ("Id", PyStr "auth0|5"); ("Connection", PyStr "other")].

(** Three lines of a users file, the first and the last for the same
    email. *)
Definition second_line : string :=
  "{" ++ Sample.quoted "Email" ++ ":" ++ Sample.quoted "b@x.com" ++ ","
      ++ Sample.quoted "Name" ++ ":" ++ Sample.quoted "B" ++ "}" ++ Sample.newline.

Definition third_line : string :=
  "{" ++ Sample.quoted "Email" ++ ":" ++ Sample.quoted "a@x.com" ++ ","
      ++ Sample.quoted "Name" ++ ":" ++ Sample.quoted "A again" ++ "}" ++ Sample.newline.

Definition second : record := [("Email", PyStr "b@x.com"); ("Name", PyStr "B")].
Definition third : record := [("Email", PyStr "a@x.com"); ("Name", PyStr "A again")].

Definition three_lines : list string := [Sample.users_line; second_line; third_line].

Definition three_items : index :=
  [(PyStr "a@x.com", Sample.profile); (PyStr "b@x.com", second);
   (PyStr "a@x.com", third)].

Definition two_entries : index := [(PyStr "a@x.com", third); (PyStr "b@x.com", second)].

(** A line that is no JSON. *)
Definition broken_line : string := "{".

(** A local user whose email is spelled with a capital. *)
Definition capital : record :=
  [("Email", PyStr "A@x.com"); ("Email Verified", PyBool true);
   ("Name", PyStr "A"); ("Id", PyStr "auth0|1"); ("Connection", PyStr "Local")].

Definition capital_users : index := [(PyStr "A@x.com", capital)].

Definition capital_output : record :=
  [("Connection", PyStr "Local"); ("email", PyStr "A@x.com");
   ("email_verified", PyBool true); ("name", PyStr "A");
   ("connection", PyStr "Local"); ("id", PyStr "1")].

End Cases.

(* ------------------------------------------------------------------ *)
(** ** Words for the decoder: the stages of a number *)

Module number.
Import json.





End number.

(** Three lines of a hashes file, the first and the last for the same
    email, with different connections. *)
Module HashCases.

Definition old_line : string :=
  "{" ++ Sample.quoted "email" ++ ":" ++ Sample.quoted "a@x.com" ++ ","
      ++ Sample.quoted "connection" ++ ":" ++ Sample.quoted "Old" ++ "}" ++ Sample.newline.

Definition other_line : string :=
  "{" ++ Sample.quoted "email" ++ ":" ++ Sample.quoted "b@x.com" ++ ","
      ++ Sample.quoted "connection" ++ ":" ++ Sample.quoted "Other" ++ "}" ++ Sample.newline.

Definition new_line : string :=
  "{" ++ Sample.quoted "email" ++ ":" ++ Sample.quoted "a@x.com" ++ ","
      ++ Sample.quoted "connection" ++ ":" ++ Sample.quoted "New" ++ "}" ++ Sample.newline.

Definition old : record := [("email", PyStr "a@x.com"); ("connection", PyStr "Old")].
Definition other : record := [("email", PyStr "b@x.com"); ("connection", PyStr "Other")].
Definition new : record := [("email", PyStr "a@x.com"); ("connection", PyStr "New")].

Definition lines : list string := [old_line; other_line; new_line].

Definition index_of_lines : index :=
  [(PyStr "a@x.com", new); (PyStr "b@x.com", other)].

End HashCases.

(* ------------------------------------------------------------------ *)
(** ** Dictionaries: reading after writing *)

Unset Implicit Arguments.

Lemma get_set d k v k' :
  get (set d k v) k' = if String.eqb k k' then Some v else get d k'.
Proof.
  unfold get, set. induction d as [|[k0 v0] d IH]; simpl.
  - reflexivity.
  - destruct (String.eqb k0 k) eqn:E0; simpl.
    + apply String.eqb_eq in E0. subst k0.
      destruct (String.eqb k k'); reflexivity.
    + destruct (String.eqb k0 k') eqn:E1.
      * apply String.eqb_eq in E1. subst k0.
        rewrite String.eqb_sym, E0. reflexivity.
      * exact IH.
Qed.

Lemma get_del d k k' :
  get (del d k) k' = if String.eqb k k' then None else get d k'.
Proof.
  unfold get, del. induction d as [|[k0 v0] d IH]; simpl.
  - destruct (String.eqb k k'); reflexivity.
  - destruct (String.eqb k0 k) eqn:E0; simpl.
    + apply String.eqb_eq in E0. subst k0. rewrite IH.
      destruct (String.eqb k k'); reflexivity.
    + destruct (String.eqb k0 k') eqn:E1.
      * apply String.eqb_eq in E1. subst k0.
        rewrite String.eqb_sym, E0. reflexivity.
      * exact IH.
Qed.

Arguments get : simpl never.
Arguments set : simpl never.
Arguments del : simpl never.

(** Reads of a dictionary built by assignments and deletions, down to
    reads of the dictionary it was built from. *)
Ltac dict_reads :=
  repeat (rewrite ?get_set, ?get_del; cbn [String.eqb Ascii.eqb Bool.eqb]).
Ltac dict_reads_in H :=
  repeat (rewrite ?get_set, ?get_del in H; cbn [String.eqb Ascii.eqb Bool.eqb] in H).

Lemma rename_fields_ok user_info r :
  rename_fields user_info = Ok r ->
  exists e user_id,
    get user_info "Email" = Some e /\
    get user_info "Id" = Some (PyStr user_id) /\
    get r "Email" = None /\
    get r "email" = Some e /\
    get r "id" = Some (PyStr (strip_auth0 user_id)) /\
    get r "Connection" = get user_info "Connection" /\
    get r "connection" =
      Some (match get user_info "Connection" with Some c => c | None => PyNone end) /\
    get r "password_hash" = get user_info "password_hash".
Proof.
  unfold rename_fields, pop, pop_default, bind. intros H.
  repeat (repeat (progress (cbn [fst snd] in H; dict_reads_in H));
          match type of H with
          | context [get user_info ?k] =>
              destruct (get user_info k) eqn:?; try discriminate
          | context [truthy ?x] => destruct (truthy x) eqn:?
          | context [match ?v with PyStr _ => _ | _ => _ end] =>
              destruct v; try discriminate
          end).
  all: injection H as <-; do 2 eexists; repeat split; dict_reads;
    repeat match goal with
      | E : get ?d ?k = _ |- context [get ?d ?k] => rewrite E
      end; reflexivity.
Qed.

Lemma rename_fields_needs_Email user_info :
  get user_info "Email" = None ->
  rename_fields user_info = Raise (KeyError (PyStr "Email")).
Proof. intros H. unfold rename_fields, pop. rewrite H. reflexivity. Qed.

(* ------------------------------------------------------------------ *)
(** ** Keys *)

Lemma pyfloat_eqb_eq f g : pyfloat_eqb f g = true <-> f = g.
Proof.
  destruct f, g; simpl; split; intros H;
    try discriminate; try reflexivity.
  - apply Bool.eqb_prop in H. congruence.
  - injection H as ->. apply Bool.eqb_reflx.
  - apply andb_prop in H as [H H3]. apply andb_prop in H as [H1 H2].
    apply Bool.eqb_prop in H1. apply N.eqb_eq in H2. apply Z.eqb_eq in H3.
    congruence.
  - injection H as -> -> ->.
    rewrite Bool.eqb_reflx, N.eqb_refl, Z.eqb_refl. reflexivity.
Qed.

Lemma pykey_eqb_eq a b : pykey_eqb a b = true <-> a = b.
Proof.
  destruct a, b; simpl; split; intros H;
    try discriminate; try reflexivity.
  - apply Z.eqb_eq in H. congruence.
  - injection H as ->. apply Z.eqb_refl.
  - apply pyfloat_eqb_eq in H. congruence.
  - injection H as ->. apply pyfloat_eqb_eq. reflexivity.
  - apply String.eqb_eq in H. congruence.
  - injection H as ->. apply String.eqb_refl.
Qed.

(** Two objects are the same key when they hash and compare alike. *)
Lemma key_eqb_true a b :
  key_eqb a b = true <-> exists x, key_of a = Some x /\ key_of b = Some x.
Proof.
  unfold key_eqb. split.
  - destruct (key_of a) as [x|], (key_of b) as [y|]; try discriminate.
    intros H. apply pykey_eqb_eq in H. subst y. eauto.
  - intros (x & -> & ->). apply pykey_eqb_eq. reflexivity.
Qed.

Lemma key_eqb_sym a b : key_eqb a b = key_eqb b a.
Proof.
  destruct (key_eqb a b) eqn:E, (key_eqb b a) eqn:E'; try reflexivity.
  - apply key_eqb_true in E as (x & Ha & Hb).
    assert (key_eqb b a = true) by (apply key_eqb_true; eauto). congruence.
  - apply key_eqb_true in E' as (x & Ha & Hb).
    assert (key_eqb a b = true) by (apply key_eqb_true; eauto). congruence.
Qed.

Lemma key_eqb_trans a b c :
  key_eqb a b = true -> key_eqb b c = true -> key_eqb a c = true.
Proof.
  intros (x & Ha & Hb)%key_eqb_true (y & Hb' & Hc)%key_eqb_true.
  apply key_eqb_true. exists x. split; congruence.
Qed.

Lemma key_eqb_refl k : key_of k <> None -> key_eqb k k = true.
Proof.
  intros H. apply key_eqb_true. destruct (key_of k) as [x|]; [eauto|congruence].
Qed.

Lemma index_wf_field field d k r :
  index_wf field d = true -> In (k, r) d ->
  exists e, get r field = Some e /\ key_eqb e k = true.
Proof.
  induction d as [|[k0 r0] d IH]; simpl; [tauto|].
  intros H [Heq|Hin].
  - injection Heq as -> ->.
    apply andb_prop in H as [H _]. apply andb_prop in H as [H _].
    destruct (get r field) as [e|]; [eauto | discriminate].
  - apply andb_prop in H as [_ H]. auto.
Qed.

Lemma index_wf_fresh field k r d k' r' :
  index_wf field ((k, r) :: d) = true -> In (k', r') d -> key_eqb k' k = false.
Proof.
  simpl. intros H Hin.
  apply andb_prop in H as [H _]. apply andb_prop in H as [_ H].
  apply negb_true_iff in H.
  destruct (key_eqb k' k) eqn:E; [|reflexivity].
  assert (existsb (fun kr => key_eqb (fst kr) k) d = true)
    by (apply existsb_exists; exists (k', r'); auto).
  congruence.
Qed.

Lemma index_wf_tail field item d :
  index_wf field (item :: d) = true -> index_wf field d = true.
Proof.
  destruct item. simpl. intros H. apply andb_prop in H as [_ H]. exact H.
Qed.

Lemma index_wf_unique field d k1 r1 k2 r2 :
  index_wf field d = true -> In (k1, r1) d -> In (k2, r2) d ->
  key_eqb k1 k2 = true -> (k1, r1) = (k2, r2).
Proof.
  induction d as [|[k0 r0] d IH]; [simpl; tauto|].
  intros Hwf [H1|H1] [H2|H2] E.
  - congruence.
  - injection H1 as -> ->.
    rewrite key_eqb_sym, (index_wf_fresh _ _ _ _ _ _ Hwf H2) in E. discriminate.
  - injection H2 as -> ->.
    rewrite (index_wf_fresh _ _ _ _ _ _ Hwf H1) in E. discriminate.
  - apply IH; auto. eapply index_wf_tail; eauto.
Qed.

(* ------------------------------------------------------------------ *)
(** ** The decoder terminates *)

Module json_total.
Import json.

Lemma skip_ws_length s : (String.length (skip_ws s) <= String.length s)%nat.
Proof. induction s as [|c s IH]; simpl; [lia|]. destruct (is_ws c); simpl; lia. Qed.

Lemma drop_length n s : (String.length (drop n s) <= String.length s)%nat.
Proof.
  revert s. induction n as [|n IH]; intros [|c s]; simpl; try lia.
  specialize (IH s). lia.
Qed.

Lemma is_char_inv n s : is_char n s = true -> exists c s', s = String c s'.
Proof. destruct s as [|c s']; [discriminate|]. eauto. Qed.

(** The string at hand starts with the character tested for. *)
Ltac starts_with Hc :=
  let E := fresh "E" in
  apply is_char_inv in Hc as (? & ? & E);
  rewrite E in *; cbn [drop String.length] in *.

Lemma hex4_length s n r : hex4 s = Some (n, r) -> (String.length r + 4 = String.length s)%nat.
Proof.
  unfold hex4. destruct s as [|a [|b [|c [|d r']]]]; try discriminate.
  destruct (hex_val a), (hex_val b), (hex_val c), (hex_val d); try discriminate.
  intros [= _ <-]. simpl. lia.
Qed.

Lemma scanstring_total fuel : forall s acc,
  (String.length s < fuel)%nat ->
  scanstring fuel s acc <> Exhausted /\
  forall x r, scanstring fuel s acc = Scanned x r -> (String.length r < String.length s)%nat.
Proof.
  induction fuel as [|fuel IH]; intros s acc Hf; [lia|].
  cbn [scanstring]. destruct s as [|c s]; [split; [discriminate|intros; discriminate]|].
  cbn [String.length] in Hf.
  destruct (N.eqb (code c) 34).
  { split; [discriminate|]. intros x r [= _ <-]. cbn [String.length]. lia. }
  destruct (N.eqb (code c) 92).
  2:{ destruct (N.ltb (code c) 32); [split; [discriminate|intros; discriminate]|].
      destruct (IH s (acc ++ String c "") ltac:(lia)) as [H1 H2].
      split; [exact H1|]. intros x r H. apply H2 in H. cbn [String.length] in *. lia. }
  destruct s as [|e s]; [split; [discriminate|intros; discriminate]|].
  cbn [String.length] in Hf.
  destruct (escape e) as [ch|].
  { destruct (IH s (acc ++ ch) ltac:(lia)) as [H1 H2].
    split; [exact H1|]. intros x r H. apply H2 in H. cbn [String.length] in *. lia. }
  destruct (N.eqb (code e) 117); [|split; [discriminate|intros; discriminate]].
  destruct (hex4 s) as [[uni r]|] eqn:Hh; [|split; [discriminate|intros; discriminate]].
  apply hex4_length in Hh.
  assert (Hlone : forall acc',
           scanstring fuel r acc' <> Exhausted /\
           forall x r', scanstring fuel r acc' = Scanned x r' ->
                        (String.length r' < String.length (String c (String e s)))%nat).
  { intros acc'. destruct (IH r acc' ltac:(lia)) as [H1 H2].
    split; [exact H1|]. intros x r' H. apply H2 in H. cbn [String.length] in *. lia. }
  destruct (N.leb 55296 uni && N.leb uni 56319)%bool; [|apply Hlone].
  destruct r as [|b1 [|b2 r2]]; try apply Hlone.
  destruct (N.eqb (code b1) 92 && N.eqb (code b2) 117)%bool; [|apply Hlone].
  destruct (hex4 r2) as [[uni2 r3]|] eqn:Hh2; [|split; [discriminate|intros; discriminate]].
  apply hex4_length in Hh2. cbn [String.length] in Hh.
  destruct (N.leb 56320 uni2 && N.leb uni2 57343)%bool; [|apply Hlone].
  match goal with |- scanstring fuel r3 ?a <> _ /\ _ =>
    destruct (IH r3 a ltac:(lia)) as [H1 H2] end.
  split; [exact H1|]. intros x r' H. apply H2 in H. cbn [String.length] in *. lia.
Qed.

Lemma digits_length s : forall acc n v m r,
  digits s acc n = (v, m, r) -> (String.length r <= String.length s)%nat.
Proof.
  induction s as [|c s IH]; cbn [digits]; intros acc n v m r.
  - intros [= _ _ <-]. lia.
  - destruct (is_digit c).
    + intros H. apply IH in H. cbn [String.length]. lia.
    + intros [= _ _ <-]. lia.
Qed.

Lemma digits_progress c s acc n v m r :
  is_digit c = true -> digits (String c s) acc n = (v, m, r) ->
  (String.length r <= String.length s)%nat.
Proof. cbn [digits]. intros ->. apply digits_length. Qed.

Lemma match_number_length s v r :
  match_number s = Some (v, r) -> (String.length r < String.length s)%nat.
Proof.
  unfold match_number.
  set (sign := match s with
               | String c r0 => if N.eqb (code c) 45 then (true, r0) else (false, s)
               | EmptyString => (false, s)
               end).
  assert (Hs1 : (String.length (snd sign) <= String.length s)%nat).
  { subst sign. destruct s as [|c r0]; [simpl; lia|].
    destruct (N.eqb (code c) 45); cbn [snd String.length]; lia. }
  destruct sign as [neg s1]. cbn [snd] in Hs1.
  destruct s1 as [|c r0]; [discriminate|].
  destruct (is_digit c) eqn:Hd; [|discriminate].
  set (int := if N.eqb (code c) 48 then (0%Z, 1%Z, r0) else digits (String c r0) 0 0).
  assert (H1 : (String.length (snd int) <= String.length r0)%nat).
  { subst int. destruct (N.eqb (code c) 48); [cbn [snd]; lia|].
    destruct (digits (String c r0) 0 0) as [[v0 m0] r1] eqn:E.
    cbn [snd]. eapply digits_progress; eauto. }
  destruct int as [[ip ilen] r1]. cbn [snd] in H1.
  set (frac := match r1 with
               | String d r' =>
                   if (N.eqb (code d) 46 && starts_with_digit r')%bool
                   then let '(v, n, r'') := digits r' 0 0 in (v, n, r'', true)
                   else (0%Z, 0%Z, r1, false)
               | EmptyString => (0%Z, 0%Z, r1, false)
               end).
  assert (H2 : (String.length (snd (fst frac)) <= String.length r1)%nat).
  { subst frac. destruct r1 as [|d r']; [cbn; lia|].
    destruct (N.eqb (code d) 46 && starts_with_digit r')%bool; [|cbn [fst snd]; lia].
    destruct (digits r' 0 0) as [[v0 m0] r''] eqn:E. cbn [fst snd String.length].
    apply digits_length in E. lia. }
  destruct frac as [[[fv fn] r2] has_frac]. cbn [fst snd] in H2.
  set (ex := match r2 with
             | String e r' =>
                 if (N.eqb (code e) 101 || N.eqb (code e) 69)%bool then
                   match r' with
                   | String sg r'' =>
                       if (N.eqb (code sg) 45 && starts_with_digit r'')%bool
                       then let '(v, _, t) := digits r'' 0 0 in ((- v)%Z, t, true)
                       else if (N.eqb (code sg) 43 && starts_with_digit r'')%bool
                       then let '(v, _, t) := digits r'' 0 0 in (v, t, true)
                       else if is_digit sg
                       then let '(v, _, t) := digits r' 0 0 in (v, t, true)
                       else (0%Z, r2, false)
                   | EmptyString => (0%Z, r2, false)
                   end
                 else (0%Z, r2, false)
             | EmptyString => (0%Z, r2, false)
             end).
  assert (H3 : (String.length (snd (fst ex)) <= String.length r2)%nat).
  { subst ex. destruct r2 as [|e r']; [cbn; lia|].
    destruct (N.eqb (code e) 101 || N.eqb (code e) 69)%bool; [|cbn [fst snd]; lia].
    destruct r' as [|sg r'']; [cbn [fst snd]; lia|].
    destruct (N.eqb (code sg) 45 && starts_with_digit r'')%bool.
    { destruct (digits r'' 0 0) as [[v0 m0] t] eqn:E. cbn [fst snd String.length].
      apply digits_length in E. lia. }
    destruct (N.eqb (code sg) 43 && starts_with_digit r'')%bool.
    { destruct (digits r'' 0 0) as [[v0 m0] t] eqn:E. cbn [fst snd String.length].
      apply digits_length in E. lia. }
    destruct (is_digit sg); [|cbn [fst snd]; lia].
    destruct (digits (String sg r'') 0 0) as [[v0 m0] t] eqn:E.
    cbn [fst snd String.length]. apply digits_length in E.
    cbn [String.length] in E. lia. }
  destruct ex as [[ev r3] has_exp]. cbn [fst snd] in H3.
  cbn [String.length] in Hs1.
  destruct (has_frac || has_exp)%bool; intros [= _ <-]; lia.
Qed.

Lemma prefix_length p s :
  String.prefix p s = true ->
  (String.length (drop (String.length p) s) + String.length p = String.length s)%nat.
Proof.
  revert s. induction p as [|a p IH]; intros [|b s]; cbn [String.prefix drop String.length];
    try lia; try discriminate.
  destruct (ascii_dec a b); [|discriminate]. intros H. apply IH in H. lia.
Qed.

Lemma literal_length lit v s v' r :
  (0 < String.length lit)%nat -> literal lit v s = Some (v', r) ->
  (String.length r < String.length s)%nat.
Proof.
  unfold literal. intros Hl. destruct (String.prefix lit s) eqn:E; [|discriminate].
  intros [= _ <-]. apply prefix_length in E. lia.
Qed.

Lemma scan_scalar_total s :
  scan_scalar s <> Exhausted /\
  forall v r, scan_scalar s = Scanned v r -> (String.length r < String.length s)%nat.
Proof.
  unfold scan_scalar.
  repeat match goal with
  | |- context [literal ?l ?v s] =>
      let E := fresh "E" in
      destruct (literal l v s) as [[? ?]|] eqn:E;
      [ apply literal_length in E; [|cbn; lia];
        split; [discriminate | intros ? ? [= _ <-]; exact E] | ]
  | |- context [match_number s] =>
      let E := fresh "E" in
      destruct (match_number s) as [[? ?]|] eqn:E;
      [ apply match_number_length in E;
        split; [discriminate | intros ? ? [= _ <-]; exact E] | ]
  end.
  split; [discriminate | intros; discriminate].
Qed.

Lemma scan_total fuel :
  (forall s, (2 * String.length s < fuel)%nat ->
     scan_once fuel s <> Exhausted /\
     forall v r, scan_once fuel s = Scanned v r ->
                 (String.length r < String.length s)%nat) /\
  (forall s acc, (2 * String.length s + 1 < fuel)%nat ->
     object_items fuel s acc <> Exhausted /\
     forall v r, object_items fuel s acc = Scanned v r ->
                 (String.length r < String.length s)%nat) /\
  (forall s acc, (2 * String.length s + 1 < fuel)%nat ->
     array_items fuel s acc <> Exhausted /\
     forall v r, array_items fuel s acc = Scanned v r ->
                 (String.length r < String.length s)%nat).
Proof.
  induction fuel as [|fuel (IHv & IHo & IHa)];
    [repeat split; intros; lia|].
  split; [|split].
  - intros s Hf. cbn [scan_once].
    destruct s as [|c r]; [split; [discriminate|intros; discriminate]|].
    cbn [String.length] in Hf.
    destruct (N.eqb (code c) 34).
    { destruct (scanstring_total (S (String.length r)) r "" ltac:(lia)) as [H1 H2].
      destruct (scanstring (S (String.length r)) r "") as [str r'| |];
        [|split; [discriminate|intros; discriminate]|congruence].
      split; [discriminate|]. intros v r0 [= _ <-].
      specialize (H2 _ _ eq_refl). cbn [String.length]. lia. }
    pose proof (skip_ws_length r) as Hw.
    destruct (N.eqb (code c) 123).
    { destruct (is_char 125 (skip_ws r)) eqn:Hc.
      - starts_with Hc. split; [discriminate|]. intros v r0 [= _ <-]. lia.
      - destruct (IHo (skip_ws r) [] ltac:(lia)) as [H1 H2].
        split; [exact H1|]. intros v r0 H. apply H2 in H. cbn [String.length]. lia. }
    destruct (N.eqb (code c) 91).
    { destruct (is_char 93 (skip_ws r)) eqn:Hc.
      - starts_with Hc. split; [discriminate|]. intros v r0 [= _ <-]. lia.
      - destruct (IHa (skip_ws r) [] ltac:(lia)) as [H1 H2].
        split; [exact H1|]. intros v r0 H. apply H2 in H. cbn [String.length]. lia. }
    apply scan_scalar_total.
  - intros s acc Hf. cbn [object_items].
    destruct (is_char 34 s) eqn:Hq; [|split; [discriminate|intros; discriminate]].
    starts_with Hq.
    match goal with |- context [scanstring ?f ?t ""] =>
      destruct (scanstring_total f t "" ltac:(lia)) as [H1 H2];
      destruct (scanstring f t "") as [key r| |];
        [|split; [discriminate|intros; discriminate]|congruence]
    end.
    specialize (H2 _ _ eq_refl). clear H1.
    pose proof (skip_ws_length r) as Hw.
    destruct (is_char 58 (skip_ws r)) eqn:Hc; [|split; [discriminate|intros; discriminate]].
    starts_with Hc.
    match goal with |- context [scan_once fuel (skip_ws ?t)] =>
      pose proof (skip_ws_length t) as Hw';
      destruct (IHv (skip_ws t) ltac:(lia)) as [H3 H4];
      destruct (scan_once fuel (skip_ws t)) as [v r'| |];
        [|split; [discriminate|intros; discriminate]|congruence]
    end.
    specialize (H4 _ _ eq_refl). clear H3.
    pose proof (skip_ws_length r') as Hw''.
    destruct (is_char 125 (skip_ws r')) eqn:Hc'.
    { starts_with Hc'. split; [discriminate|]. intros v0 r0 [= _ <-]. lia. }
    destruct (is_char 44 (skip_ws r')) eqn:Hc'';
      [|split; [discriminate|intros; discriminate]].
    starts_with Hc''.
    match goal with |- context [object_items fuel (skip_ws ?t) ?a] =>
      pose proof (skip_ws_length t) as Hw3;
      destruct (IHo (skip_ws t) a ltac:(lia)) as [H5 H6]
    end.
    split; [exact H5|]. intros v0 r0 H. apply H6 in H. lia.
  - intros s acc Hf. cbn [array_items].
    destruct (IHv s ltac:(lia)) as [H3 H4].
    destruct (scan_once fuel s) as [v r'| |];
      [|split; [discriminate|intros; discriminate]|congruence].
    specialize (H4 _ _ eq_refl). clear H3.
    pose proof (skip_ws_length r') as Hw''.
    destruct (is_char 93 (skip_ws r')) eqn:Hc'.
    { starts_with Hc'. split; [discriminate|]. intros v0 r0 [= _ <-]. lia. }
    destruct (is_char 44 (skip_ws r')) eqn:Hc'';
      [|split; [discriminate|intros; discriminate]].
    starts_with Hc''.
    match goal with |- context [array_items fuel (skip_ws ?t) ?a] =>
      pose proof (skip_ws_length t) as Hw3;
      destruct (IHa (skip_ws t) a ltac:(lia)) as [H5 H6]
    end.
    split; [exact H5|]. intros v0 r0 H. apply H6 in H. lia.
Qed.

(** [json.loads] never runs out of fuel: the decoder is total. *)
Lemma loads_fuel s : loads s <> Raise RecursionError.
Proof.
  unfold loads.
  destruct (String.prefix _ s); [discriminate|].
  pose proof (skip_ws_length s) as Hw.
  destruct (proj1 (scan_total (2 * String.length s + 1)) (skip_ws s) ltac:(lia)) as [H _].
  destruct (scan_once (2 * String.length s + 1) (skip_ws s)) as [v r| |];
    [|discriminate|congruence].
  destruct (String.eqb (skip_ws r) ""); discriminate.
Qed.

(** The one exception of [json.loads] is [JSONDecodeError]. *)
Lemma loads_raises s e : loads s = Raise e -> e = JSONDecodeError.
Proof.
  intros H. pose proof (loads_fuel s) as Hf. unfold loads in *.
  destruct (String.prefix _ s); [congruence|].
  destruct (scan_once (2 * String.length s + 1) (skip_ws s)) as [v r| |];
    [destruct (String.eqb (skip_ws r) "")| |]; congruence.
Qed.

End json_total.

(** The validation returns a verdict on every sequence of lines. *)
Lemma verify_valid_ndjson_lines_total ndjson_lines :
  exists verdict, verify_valid_ndjson_lines ndjson_lines = Ok verdict.
Proof.
  unfold verify_valid_ndjson_lines.
  destruct (json.loads ("[" ++ String.concat "," ndjson_lines ++ "]")) as [v|e] eqn:E.
  - eauto.
  - apply json_total.loads_raises in E. subst e. eauto.
Qed.

(** The indexers build well-formed indexes. *)
Lemma index_set_keys (d : index) e (r : record) k :
  existsb (fun kr => key_eqb (fst kr) k) (dict_set key_eqb d e r) = true ->
  existsb (fun kr => key_eqb (fst kr) k) d = true \/ key_eqb e k = true.
Proof.
  induction d as [|[k0 r0] d IH]; simpl.
  - rewrite orb_false_r. auto.
  - destruct (key_eqb k0 e); simpl.
    + auto.
    + intros [H|H]%orb_prop.
      * rewrite H. auto.
      * destruct (IH H) as [H'|H']; [rewrite H', orb_true_r|]; auto.
Qed.

Lemma index_set_wf field (d : index) e (r : record) :
  index_wf field d = true -> get r field = Some e -> key_of e <> None ->
  index_wf field (dict_set key_eqb d e r) = true.
Proof.
  intros Hwf Hget Hk. induction d as [|[k0 r0] d IH]; simpl.
  - rewrite Hget, key_eqb_refl by assumption. reflexivity.
  - simpl in Hwf. apply andb_prop in Hwf as [Hwf H3].
    apply andb_prop in Hwf as [H1 H2].
    destruct (key_eqb k0 e) eqn:E; simpl.
    + rewrite Hget, key_eqb_sym, E, H2, H3. reflexivity.
    + rewrite H1, (IH H3), andb_true_r. simpl.
      apply negb_true_iff. apply negb_true_iff in H2.
      destruct (existsb (fun kr => key_eqb (fst kr) k0) (dict_set key_eqb d e r)) eqn:X;
        [|reflexivity].
      apply index_set_keys in X as [X|X]; [congruence|].
      rewrite key_eqb_sym in X. congruence.
Qed.

Lemma index_lines_wf field lines : forall d0 d,
  index_wf field d0 = true -> index_lines field lines d0 = Ok d ->
  index_wf field d = true.
Proof.
  induction lines as [|line lines IH]; simpl; intros d0 d Hwf H.
  - congruence.
  - destruct (json.loads line) as [j|]; [|discriminate]. simpl in H.
    destruct j as [| | | | | |user_json]; try discriminate.
    unfold getitem, index_set in H.
    destruct (get user_json field) as [email|] eqn:Hget; [|discriminate].
    simpl in H. destruct (key_of email) eqn:Hk; [|discriminate]. simpl in H.
    eapply IH; [|exact H]. apply index_set_wf; congruence.
Qed.

Lemma get_user_info_by_email_wf users_file_path users_file events users :
  get_user_info_by_email users_file_path users_file = (events, Ok users) ->
  index_wf "Email" users = true.
Proof.
  unfold get_user_info_by_email, lift, when, io_bind.
  destruct (verify_valid_ndjson_lines (get_user_lines users_file)) as [[|]|];
    simpl; try discriminate.
  destruct (index_lines "Email" (get_user_lines users_file) []) as [d|] eqn:E;
    [|discriminate].
  intros [= _ <-]. eapply index_lines_wf; [|exact E]. reflexivity.
Qed.

(** The indexers print on the standard error only. *)
Lemma get_user_info_by_email_stdout users_file_path users_file :
  stdout (get_user_info_by_email users_file_path users_file) = [].
Proof.
  unfold get_user_info_by_email, lift, when, io_bind.
  destruct (verify_valid_ndjson_lines (get_user_lines users_file)) as [[|]|];
    reflexivity.
Qed.

(* ------------------------------------------------------------------ *)
(** ** The loop, one user at a time *)

Lemma loop_body_contributes db hashes out miss item out' miss' :
  loop_body db hashes (out, miss) item = Ok (out', miss') ->
  exists c, contributes db hashes item c /\
            out' = (out ++ fst c)%list /\ miss' = (miss ++ snd c)%list.
Proof.
  destruct item as [email user_info]. unfold loop_body, index_getitem, getitem.
  destruct (rename_fields user_info) as [r|] eqn:Hr; [|discriminate]. simpl.
  destruct (get r "Connection") as [c|] eqn:Hc; [|discriminate]. simpl.
  destruct (py_eq c db) eqn:Heq.
  - destruct (key_of email) as [x|] eqn:Hk; [|discriminate].
    assert (Hk' : key_of email <> None) by congruence.
    destruct (index_get hashes email) as [info|] eqn:Hg.
    + simpl. destruct (get info "passwordHash") as [h|] eqn:Hh; [|discriminate].
      simpl. intros [= <- <-]. eexists. split.
      * eapply with_hash; eauto.
      * simpl. rewrite app_nil_r. auto.
    + intros [= <- <-]. eexists. split.
      * eapply missing_hash; eauto.
      * auto.
  - intros [= <- <-]. eexists. split.
    + eapply non_local; eauto.
    + simpl. rewrite !app_nil_r. auto.
Qed.

Lemma loop_contributes db hashes items : forall acc out miss,
  loop db hashes items acc = Ok (out, miss) ->
  exists cs, Forall2 (contributes db hashes) items cs /\
             out = (fst acc ++ flat_map fst cs)%list /\
             miss = (snd acc ++ flat_map snd cs)%list.
Proof.
  induction items as [|item items IH]; simpl; intros [out0 miss0] out miss H.
  - injection H as <- <-. exists []. simpl. rewrite !app_nil_r. auto.
  - destruct (loop_body db hashes (out0, miss0) item) as [[out1 miss1]|] eqn:Hb;
      [|discriminate].
    simpl in H. apply loop_body_contributes in Hb as (c & Hc & -> & ->).
    apply IH in H as (cs & Hcs & -> & ->).
    exists (c :: cs). simpl. rewrite <- !app_assoc. auto.
Qed.

Lemma reconcile_contributes users hashes output missing :
  reconcile users hashes = Ok (output, missing) ->
  exists db cs, get_auth0_db_name hashes = Ok db /\
                Forall2 (contributes db hashes) users cs /\
                output = flat_map fst cs /\ missing = flat_map snd cs.
Proof.
  unfold reconcile.
  destruct (get_auth0_db_name hashes) as [db|]; [|discriminate]. simpl.
  intros (cs & Hcs & -> & ->)%loop_contributes. exists db, cs. auto.
Qed.

(** Every record of the output comes from an item of the index. *)
Lemma output_origin db hashes users cs r :
  Forall2 (contributes db hashes) users cs -> In r (flat_map fst cs) ->
  exists item c, In item users /\ contributes db hashes item c /\ In r (fst c).
Proof.
  induction 1 as [|item c users cs Hc _ IH]; simpl; [tauto|].
  rewrite in_app_iff. intros [Hin|Hin].
  - exists item, c. auto.
  - destruct (IH Hin) as (item' & c' & ? & ? & ?). exists item', c'. auto.
Qed.

Lemma missing_origin db hashes users cs m :
  Forall2 (contributes db hashes) users cs -> In m (flat_map snd cs) ->
  exists item c, In item users /\ contributes db hashes item c /\ In m (snd c).
Proof.
  induction 1 as [|item c users cs Hc _ IH]; simpl; [tauto|].
  rewrite in_app_iff. intros [Hin|Hin].
  - exists item, c. auto.
  - destruct (IH Hin) as (item' & c' & ? & ? & ?). exists item', c'. auto.
Qed.

(** Every item of the index has its contribution in the lists. *)
Lemma item_contribution db hashes users cs item :
  Forall2 (contributes db hashes) users cs -> In item users ->
  exists c, contributes db hashes item c /\
            incl (fst c) (flat_map fst cs) /\ incl (snd c) (flat_map snd cs).
Proof.
  induction 1 as [|item' c users cs Hc _ IH]; simpl; [tauto|].
  intros [<-|Hin].
  - exists c. split; [assumption|]. split; apply incl_appl, incl_refl.
  - destruct (IH Hin) as (c' & ? & ? & ?). exists c'.
    split; [assumption|]. split; apply incl_appr; assumption.
Qed.

(** What a record of the output looks like, next to the item it comes
    from. *)
Lemma contributes_output db hashes email user_info c r :
  contributes db hashes (email, user_info) c -> In r (fst c) ->
  exists r0 conn,
    rename_fields user_info = Ok r0 /\
    get r0 "Connection" = Some conn /\ py_eq conn db = true /\
    (forall k, k <> "password_hash" -> get r k = get r0 k) /\
    key_of email <> None /\
    match index_get hashes email with
    | None => r = r0 /\ snd c = [email]
    | Some info =>
        exists h, get info "passwordHash" = Some h /\
                  r = set r0 "password_hash" h /\ snd c = []
    end.
Proof.
  intros Hc Hin.
  inversion Hc as [ ? ? r0 c0 Hren Hconn Heq
                  | ? ? r0 c0 Hren Hconn Heq Hk Hg
                  | ? ? r0 c0 info h Hren Hconn Heq Hk Hg Hh ];
    subst; simpl in Hin.
  - contradiction.
  - destruct Hin as [<-|[]]. exists r0, c0.
    repeat split; auto. rewrite Hg. auto.
  - destruct Hin as [<-|[]]. exists r0, c0.
    repeat split; auto.
    + intros k Hk'. rewrite get_set.
      destruct (String.eqb "password_hash" k) eqn:E; [|reflexivity].
      apply String.eqb_eq in E. congruence.
    + rewrite Hg. eauto.
Qed.

Lemma contributes_rename db hashes email user_info c :
  contributes db hashes (email, user_info) c ->
  exists r0 conn,
    rename_fields user_info = Ok r0 /\ get r0 "Connection" = Some conn /\
    (py_eq conn db = false -> c = ([], [])).
Proof.
  intros Hc.
  inversion Hc as [ ? ? r0 c0 Hren Hconn Heq
                  | ? ? r0 c0 Hren Hconn Heq Hk Hg
                  | ? ? r0 c0 info h Hren Hconn Heq Hk Hg Hh ];
    subst; exists r0, c0; repeat split; auto; congruence.
Qed.

(** In a well-formed index, the records of the output that carry the
    email of an item come from that item. *)
Lemma record_of_identity db hashes users cs email user_info r e :
  index_wf "Email" users = true ->
  Forall2 (contributes db hashes) users cs ->
  In (email, user_info) users ->
  In r (flat_map fst cs) -> get r "email" = Some e -> key_eqb e email = true ->
  exists c, contributes db hashes (email, user_info) c /\ In r (fst c).
Proof.
  intros Hwf Hcs Hin Hr He Hk.
  destruct (output_origin _ _ _ _ _ Hcs Hr) as ([email' ui'] & c & Hin' & Hc & Hrc).
  destruct (contributes_output _ _ _ _ _ _ Hc Hrc)
    as (r0 & conn & Hren & _ & _ & Hsame & _).
  apply rename_fields_ok in Hren as (e' & _ & HE & _ & _ & He' & _).
  rewrite Hsame, He' in He by discriminate. injection He as ->.
  destruct (index_wf_field _ _ _ _ Hwf Hin') as (e'' & HE' & Hk').
  assert (e'' = e) as -> by congruence.
  assert (E : key_eqb email' email = true).
  { apply key_eqb_trans with e; [rewrite key_eqb_sym|]; assumption. }
  assert (Hsame' := index_wf_unique _ _ _ _ _ _ Hwf Hin' Hin E).
  injection Hsame' as -> ->. eauto.
Qed.

(** The record an item adds to the output carries the email of the
    item. *)
Lemma identity_of_record db hashes users email user_info c r :
  index_wf "Email" users = true ->
  In (email, user_info) users ->
  contributes db hashes (email, user_info) c -> In r (fst c) ->
  exists e, get r "email" = Some e /\ key_eqb e email = true.
Proof.
  intros Hwf Hin Hc Hrc.
  destruct (contributes_output _ _ _ _ _ _ Hc Hrc)
    as (r0 & conn & Hren & _ & _ & Hsame & _).
  apply rename_fields_ok in Hren as (e' & _ & HE & _ & _ & He' & _).
  destruct (index_wf_field _ _ _ _ Hwf Hin) as (e & HE' & Hk).
  exists e. rewrite Hsame, He' by discriminate. split; congruence.
Qed.

Lemma contributes_missing db hashes item c :
  contributes db hashes item c -> snd c = [] \/ snd c = [fst item].
Proof. intros Hc. inversion Hc; subst; simpl; auto. Qed.

Lemma no_missing_of_others db hashes email users cs :
  Forall2 (contributes db hashes) users cs ->
  (forall item, In item users -> key_eqb (fst item) email = false) ->
  filter (fun m => key_eqb m email) (flat_map snd cs) = [].
Proof.
  induction 1 as [|item c users cs Hc _ IH]; simpl; intros Hfresh; [reflexivity|].
  rewrite filter_app, IH by auto.
  destruct (contributes_missing _ _ _ _ Hc) as [->| ->]; simpl; [reflexivity|].
  rewrite Hfresh by auto. reflexivity.
Qed.

Lemma prefix_app p s :
  String.prefix p s = true <-> exists rest, s = p ++ rest.
Proof.
  revert s. induction p as [|a p IH]; intros [|b s]; simpl.
  - split; [intros _; exists ""; reflexivity | reflexivity].
  - split; [intros _; exists (String b s); reflexivity | reflexivity].
  - split; [discriminate | intros (rest & H); discriminate].
  - destruct (ascii_dec a b) as [->|Hne].
    + rewrite IH. split; intros (rest & H); exists rest; congruence.
    + split; [discriminate | intros (rest & H); congruence].
Qed.

Lemma drop_app p rest : json.drop (String.length p) (p ++ rest) = rest.
Proof. induction p as [|a p IH]; simpl; [destruct rest|]; auto. Qed.

Lemma strip_auth0_prefixed rest : strip_auth0 ("auth0|" ++ rest) = rest.
Proof.
  unfold strip_auth0.
  assert (H : String.prefix "auth0|" ("auth0|" ++ rest) = true)
    by (apply prefix_app; eauto).
  rewrite H. exact (drop_app "auth0|" rest).
Qed.

Lemma strip_auth0_other user_id :
  (forall rest, user_id <> "auth0|" ++ rest) -> strip_auth0 user_id = user_id.
Proof.
  intros H. unfold strip_auth0.
  destruct (String.prefix "auth0|" user_id) eqn:E; [|reflexivity].
  apply prefix_app in E as (rest & ->). destruct (H rest). reflexivity.
Qed.

(* ------------------------------------------------------------------ *)
(** ** The reconciliation *)

(** C9: every record of the output list still has the capitalised
    [Connection] key, its value equal to the database name taken from
    the hashes, next to the lower-case [connection] key with the same
    value. *)
Theorem output_keeps_Connection users hashes db output missing :
  get_auth0_db_name hashes = Ok db ->
  reconcile users hashes = Ok (output, missing) ->
  forall r, In r output ->
  exists c, get r "Connection" = Some c /\ py_eq c db = true /\
            get r "connection" = Some c.
Proof.
  intros Hdb (db' & cs & Hdb' & Hcs & -> & _)%reconcile_contributes r Hin.
  assert (db' = db) as -> by congruence.
  destruct (output_origin _ _ _ _ _ Hcs Hin) as ([email ui] & c & _ & Hc & Hr).
  destruct (contributes_output _ _ _ _ _ _ Hc Hr)
    as (r0 & conn & Hren & Hconn & Heq & Hsame & _).
  apply rename_fields_ok in Hren
    as (_ & _ & _ & _ & _ & _ & _ & HC & Hc' & _).
  exists conn. rewrite !Hsame by discriminate.
  rewrite Hc', <- HC, Hconn. auto.
Qed.

(** C3: a user whose [Connection] is not the database name has no
    record in the output list, whether the hashes have an entry for
    the user or not, and is not listed among the users whose hash is
    missing. *)
Theorem exclusion_correctness users hashes db output missing
  email user_info connection :
  index_wf "Email" users = true ->
  get_auth0_db_name hashes = Ok db ->
  reconcile users hashes = Ok (output, missing) ->
  In (email, user_info) users ->
  get user_info "Connection" = Some connection ->
  py_eq connection db = false ->
  (forall r e, In r output -> get r "email" = Some e -> key_eqb e email = false) /\
  (forall m, In m missing -> key_eqb m email = false).
Proof.
  intros Hwf Hdb (db' & cs & Hdb' & Hcs & -> & ->)%reconcile_contributes
    Hin Hconn Hne.
  assert (db' = db) as -> by congruence.
  assert (Hskip : forall c, contributes db hashes (email, user_info) c -> c = ([], [])).
  { intros c Hc.
    destruct (contributes_rename _ _ _ _ _ Hc) as (r0 & conn & Hren & Hc0 & Hskip).
    apply rename_fields_ok in Hren as (_ & _ & _ & _ & _ & _ & _ & HC & _).
    apply Hskip. congruence. }
  split.
  - intros r e Hr He.
    destruct (key_eqb e email) eqn:E; [exfalso|reflexivity].
    destruct (record_of_identity _ _ _ _ _ _ _ _ Hwf Hcs Hin Hr He E) as (c & Hc & Hrc).
    rewrite (Hskip c Hc) in Hrc. exact Hrc.
  - intros m Hm.
    destruct (missing_origin _ _ _ _ _ Hcs Hm) as ([email' ui'] & c & Hin' & Hc & Hmc).
    destruct (contributes_missing _ _ _ _ Hc) as [E|E];
      rewrite E in Hmc; simpl in Hmc; [contradiction|].
    destruct Hmc as [<-|[]].
    destruct (key_eqb email' email) eqn:E'; [exfalso|reflexivity].
    assert (Hsame := index_wf_unique _ _ _ _ _ _ Hwf Hin' Hin E').
    injection Hsame as -> ->.
    rewrite (Hskip c Hc) in E. discriminate.
Qed.

(** C4: for a user of the database (its [Connection] is the database
    name) who has an entry in the hashes, the output has a record, and
    the [password_hash] of the record of that user is the
    [passwordHash] of the entry, as it stands there. *)
Theorem join_correctness users hashes db output missing
  email user_info connection password_hash_info :
  index_wf "Email" users = true ->
  get_auth0_db_name hashes = Ok db ->
  reconcile users hashes = Ok (output, missing) ->
  In (email, user_info) users ->
  get user_info "Connection" = Some connection ->
  py_eq connection db = true ->
  index_get hashes email = Some password_hash_info ->
  exists h,
    get password_hash_info "passwordHash" = Some h /\
    (exists r e, In r output /\ get r "email" = Some e /\ key_eqb e email = true) /\
    (forall r e, In r output -> get r "email" = Some e -> key_eqb e email = true ->
                 get r "password_hash" = Some h).
Proof.
  intros Hwf Hdb (db' & cs & Hdb' & Hcs & -> & ->)%reconcile_contributes
    Hin Hconn Heq Hinfo.
  assert (db' = db) as -> by congruence.
  destruct (item_contribution _ _ _ _ _ Hcs Hin) as (c & Hc & Hout & _).
  assert (Hrec : exists r0 h, get password_hash_info "passwordHash" = Some h /\
                              c = ([set r0 "password_hash" h], [])).
  { inversion Hc as [ ? ? r0 c0 Hren Hconn0 Heq0
                    | ? ? r0 c0 Hren Hconn0 Heq0 Hk Hg
                    | ? ? r0 c0 info h Hren Hconn0 Heq0 Hk Hg Hh ]; subst.
    - apply rename_fields_ok in Hren as (_ & _ & _ & _ & _ & _ & _ & HC & _).
      assert (c0 = connection) by congruence. congruence.
    - congruence.
    - assert (info = password_hash_info) as -> by congruence. eauto. }
  destruct Hrec as (r0 & h & Hh & ->). exists h. split; [assumption|]. split.
  - destruct (identity_of_record _ _ _ _ _ _ (set r0 "password_hash" h) Hwf Hin Hc)
      as (e & He & Hk); [simpl; auto|].
    exists (set r0 "password_hash" h), e. split; [|auto].
    apply Hout. simpl. auto.
  - intros r e Hr He Hk.
    destruct (record_of_identity _ _ _ _ _ _ _ _ Hwf Hcs Hin Hr He Hk) as (c' & Hc' & Hrc).
    destruct (contributes_output _ _ _ _ _ _ Hc' Hrc)
      as (r1 & conn & _ & _ & _ & _ & _ & Hcase).
    rewrite Hinfo in Hcase. destruct Hcase as (h' & Hh' & -> & _).
    rewrite get_set. simpl. congruence.
Qed.

(** C5, as the program has it: a user of the database who has no
    entry in the hashes is listed exactly once among the users whose
    hash is missing and has a record in the output; the loop adds no
    [password_hash] to that record, which has the field only when the
    profile brought one of its own. *)
Theorem missing_credential_reporting users hashes db output missing
  email user_info connection :
  index_wf "Email" users = true ->
  get_auth0_db_name hashes = Ok db ->
  reconcile users hashes = Ok (output, missing) ->
  In (email, user_info) users ->
  get user_info "Connection" = Some connection ->
  py_eq connection db = true ->
  index_get hashes email = None ->
  List.length (filter (fun m => key_eqb m email) missing) = 1%nat /\
  (exists r e, In r output /\ get r "email" = Some e /\ key_eqb e email = true) /\
  (forall r e, In r output -> get r "email" = Some e -> key_eqb e email = true ->
               get r "password_hash" = get user_info "password_hash").
Proof.
  intros Hwf Hdb (db' & cs & Hdb' & Hcs & -> & ->)%reconcile_contributes
    Hin Hconn Heq Hnone.
  assert (db' = db) as -> by congruence.
  assert (Hmine : forall c, contributes db hashes (email, user_info) c ->
                  exists r0, rename_fields user_info = Ok r0 /\ c = ([r0], [email])).
  { intros c Hc.
    inversion Hc as [ ? ? r0 c0 Hren Hconn0 Heq0
                    | ? ? r0 c0 Hren Hconn0 Heq0 Hk Hg
                    | ? ? r0 c0 info h Hren Hconn0 Heq0 Hk Hg Hh ]; subst.
    - apply rename_fields_ok in Hren as (_ & _ & _ & _ & _ & _ & _ & HC & _).
      assert (c0 = connection) by congruence. congruence.
    - eauto.
    - congruence. }
  split; [|split].
  - clear Hdb Hdb'. revert Hwf Hin.
    induction Hcs as [|item c users cs Hc Hcs IH]; simpl; intros Hwf Hin; [tauto|].
    rewrite filter_app, length_app.
    destruct Hin as [->|Hin].
    + destruct (Hmine c Hc) as (r0 & _ & ->). simpl.
      rewrite key_eqb_refl.
      * rewrite (no_missing_of_others _ _ _ _ _ Hcs); [reflexivity|].
        intros [k r] Hin'. exact (index_wf_fresh _ _ _ _ _ _ Hwf Hin').
      * inversion Hc; assumption.
    + rewrite IH; [|eapply index_wf_tail; eauto|assumption].
      destruct item as [k0 r0].
      assert (E : key_eqb k0 email = false).
      { rewrite key_eqb_sym. exact (index_wf_fresh _ _ _ _ _ _ Hwf Hin). }
      destruct (contributes_missing _ _ _ _ Hc) as [->| ->]; simpl;
        [|rewrite E]; reflexivity.
  - destruct (item_contribution _ _ _ _ _ Hcs Hin) as (c & Hc & Hout & _).
    destruct (Hmine c Hc) as (r0 & _ & ->).
    destruct (identity_of_record _ _ _ _ _ _ r0 Hwf Hin Hc) as (e & He & Hk);
      [simpl; auto|].
    exists r0, e. split; [|auto]. apply Hout. simpl. auto.
  - intros r e Hr He Hk.
    destruct (record_of_identity _ _ _ _ _ _ _ _ Hwf Hcs Hin Hr He Hk) as (c' & Hc' & Hrc).
    destruct (Hmine c' Hc') as (r0 & Hren & ->).
    destruct Hrc as [<-|[]].
    apply rename_fields_ok in Hren as (_ & _ & _ & _ & _ & _ & _ & _ & _ & Hp).
    exact Hp.
Qed.

(** C7: the [id] of an output record is the [Id] of the profile it
    comes from without its prefix [auth0|] when the [Id] starts with
    that prefix, and the [Id] as it is when it does not. *)
Theorem id_prefix_stripping users hashes output missing :
  reconcile users hashes = Ok (output, missing) ->
  forall r, In r output ->
  exists email user_info user_id,
    In (email, user_info) users /\
    get r "email" = get user_info "Email" /\
    get user_info "Id" = Some (PyStr user_id) /\
    (forall rest, user_id = "auth0|" ++ rest -> get r "id" = Some (PyStr rest)) /\
    ((forall rest, user_id <> "auth0|" ++ rest) -> get r "id" = Some (PyStr user_id)).
Proof.
  intros (db & cs & Hdb & Hcs & -> & _)%reconcile_contributes r Hin.
  destruct (output_origin _ _ _ _ _ Hcs Hin) as ([email ui] & c & Hin' & Hc & Hr).
  destruct (contributes_output _ _ _ _ _ _ Hc Hr)
    as (r0 & conn & Hren & _ & _ & Hsame & _).
  apply rename_fields_ok in Hren as (e & user_id & HE & HI & _ & He & Hid & _).
  exists email, ui, user_id. rewrite !Hsame by discriminate.
  repeat split; try congruence.
  - intros rest ->. rewrite Hid, strip_auth0_prefixed. reflexivity.
  - intros Hother. rewrite Hid, strip_auth0_other by assumption. reflexivity.
Qed.

Lemma exclusion_correctness_witness :
  (forall r e, In r Sample.three_output -> get r "email" = Some e ->
               key_eqb e (PyStr "b@x.com") = false) /\
  (forall m, In m [PyStr "c@x.com"] -> key_eqb m (PyStr "b@x.com") = false).
Proof.
  apply (exclusion_correctness Sample.three_users Sample.two_hashes (PyStr "Local")
           Sample.three_output [PyStr "c@x.com"]
           (PyStr "b@x.com") Sample.social (PyStr "google-oauth2"));
    try reflexivity.
  simpl. auto.
Defined.

Lemma join_correctness_witness :
  exists h,
    get Sample.credential "passwordHash" = Some h /\
    (exists r e, In r Sample.three_output /\ get r "email" = Some e /\
                 key_eqb e (PyStr "a@x.com") = true) /\
    (forall r e, In r Sample.three_output -> get r "email" = Some e ->
                 key_eqb e (PyStr "a@x.com") = true ->
                 get r "password_hash" = Some h).
Proof.
  apply (join_correctness Sample.three_users Sample.two_hashes (PyStr "Local")
           Sample.three_output [PyStr "c@x.com"]
           (PyStr "a@x.com") Sample.profile (PyStr "Local") Sample.credential);
    try reflexivity.
  simpl. auto.
Defined.

Lemma missing_credential_reporting_witness :
  List.length (filter (fun m => key_eqb m (PyStr "c@x.com")) [PyStr "c@x.com"]) = 1%nat /\
  (exists r e, In r Sample.three_output /\ get r "email" = Some e /\
               key_eqb e (PyStr "c@x.com") = true) /\
  (forall r e, In r Sample.three_output -> get r "email" = Some e ->
               key_eqb e (PyStr "c@x.com") = true ->
               get r "password_hash" = get Sample.unhashed "password_hash").
Proof.
  apply (missing_credential_reporting Sample.three_users Sample.two_hashes
           (PyStr "Local") Sample.three_output [PyStr "c@x.com"]
           (PyStr "c@x.com") Sample.unhashed (PyStr "Local"));
    try reflexivity.
  simpl. auto.
Defined.

Lemma id_prefix_stripping_witness :
  (exists email user_info user_id,
     In (email, user_info) Sample.three_users /\
     get Sample.unhashed_output "email" = get user_info "Email" /\
     get user_info "Id" = Some (PyStr user_id) /\
     (forall rest, user_id = "auth0|" ++ rest ->
                   get Sample.unhashed_output "id" = Some (PyStr rest)) /\
     ((forall rest, user_id <> "auth0|" ++ rest) ->
      get Sample.unhashed_output "id" = Some (PyStr user_id))) /\
  (exists email user_info user_id,
     In (email, user_info) Sample.foreign_id_users /\
     get Sample.foreign_id_output "email" = get user_info "Email" /\
     get user_info "Id" = Some (PyStr user_id) /\
     (forall rest, user_id = "auth0|" ++ rest ->
                   get Sample.foreign_id_output "id" = Some (PyStr rest)) /\
     ((forall rest, user_id <> "auth0|" ++ rest) ->
      get Sample.foreign_id_output "id" = Some (PyStr user_id))).
Proof.
  split.
  - apply (id_prefix_stripping Sample.three_users Sample.two_hashes
             Sample.three_output [PyStr "c@x.com"]).
    + reflexivity.
    + simpl. auto.
  - apply (id_prefix_stripping Sample.foreign_id_users Sample.hashes
             [Sample.foreign_id_output] [PyStr "d@x.com"]).
    + reflexivity.
    + simpl. auto.
Defined.

Lemma output_keeps_Connection_witness :
  exists c, get Sample.unhashed_output "Connection" = Some c /\
            py_eq c (PyStr "Local") = true /\
            get Sample.unhashed_output "connection" = Some c.
Proof.
  apply (output_keeps_Connection Sample.three_users Sample.two_hashes
           (PyStr "Local") Sample.three_output [PyStr "c@x.com"]).
  - reflexivity.
  - reflexivity.
  - simpl. auto.
Defined.

(** C5, as the specification words it: the output record of a local
    user without a hash has no [password_hash].  It does not hold for
    a profile that has a field of that name. *)
Lemma missing_credential_record_may_carry_hash :
  ~ (forall db output missing email user_info connection,
       index_wf "Email" Sample.carrying_users = true ->
       get_auth0_db_name Sample.hashes = Ok db ->
       reconcile Sample.carrying_users Sample.hashes = Ok (output, missing) ->
       In (email, user_info) Sample.carrying_users ->
       get user_info "Connection" = Some connection ->
       py_eq connection db = true ->
       index_get Sample.hashes email = None ->
       List.length (filter (fun m => key_eqb m email) missing) = 1%nat /\
       (exists r e, In r output /\ get r "email" = Some e /\ key_eqb e email = true) /\
       (forall r e, In r output -> get r "email" = Some e -> key_eqb e email = true ->
                    get r "password_hash" = None)).
Proof.
  intros H.
  destruct (H (PyStr "Local") _ _ (PyStr "c@x.com") Sample.carrying (PyStr "Local")
              eq_refl eq_refl eq_refl (or_introl eq_refl) eq_refl eq_refl eq_refl)
    as (_ & _ & Hnone).
  specialize (Hnone _ (PyStr "c@x.com") (or_introl eq_refl) eq_refl eq_refl).
  discriminate Hnone.
Qed.

(* ------------------------------------------------------------------ *)
(** ** The scenario of the specification *)

(** C1, as the specification words it: the output is the one record
    with the six renamed fields.  The two lists differ as Python
    compares them. *)
Lemma scenario_output_differs :
  ~ (exists output,
       reconcile Sample.users Sample.hashes = Ok (output, []) /\
       py_eq (PyList (map PyDict output)) (PyList [PyDict Sample.expected]) = true).
Proof.
  intros (output & H & E). vm_compute in H. injection H as <-.
  vm_compute in E. discriminate E.
Qed.

(** C1, as the program has it: the one output record has the six
    renamed fields with the values of the scenario and, before them,
    the [Connection] field of the profile; no user is listed as
    missing a hash.  The same from the lines of the two files, where
    the list is what is printed and the run returns. *)
Theorem scenario :
  reconcile Sample.users Sample.hashes = Ok ([Sample.produced], []) /\
  Sample.produced = ("Connection", PyStr "Local") :: Sample.expected /\
  forall users_file_path hashes_file_path,
    create_auth0_import users_file_path hashes_file_path
      (Gzip [Sample.users_line]) (Zip [[Sample.hashes_line]])
    = ([StdoutJson [Sample.produced]], Ok tt).
Proof.
  split; [|split].
  - vm_compute. reflexivity.
  - reflexivity.
  - intros. vm_compute. reflexivity.
Qed.

(* ------------------------------------------------------------------ *)
(** ** Renaming twice *)

(** C6, as the specification words it: renaming the fields of a
    record that is already renamed leaves it as it is.  It does not,
    neither for the output record of the specification nor for the
    one the program produces. *)
Lemma renaming_is_not_idempotent :
  rename_fields Sample.expected <> Ok Sample.expected /\
  rename_fields Sample.produced <> Ok Sample.produced /\
  exists r, rename_fields Sample.profile = Ok r /\ rename_fields r <> Ok r.
Proof.
  split; [|split].
  - vm_compute. discriminate.
  - vm_compute. discriminate.
  - eexists. split; [vm_compute; reflexivity|]. vm_compute. discriminate.
Qed.

(** C6, as the program has it: a record whose fields are renamed has
    no [Email] any more, and renaming its fields again raises
    [KeyError('Email')] at the first step, with or without a
    [password_hash] added. *)
Theorem renaming_twice_fails user_info r :
  rename_fields user_info = Ok r ->
  rename_fields r = Raise (KeyError (PyStr "Email")) /\
  forall h, rename_fields (set r "password_hash" h) = Raise (KeyError (PyStr "Email")).
Proof.
  intros (_ & _ & _ & _ & HE & _)%rename_fields_ok. split.
  - apply rename_fields_needs_Email. exact HE.
  - intros h. apply rename_fields_needs_Email. rewrite get_set. exact HE.
Qed.

Lemma renaming_twice_fails_witness :
  rename_fields (del Sample.produced "password_hash") = Raise (KeyError (PyStr "Email")) /\
  forall h, rename_fields (set (del Sample.produced "password_hash") "password_hash" h)
            = Raise (KeyError (PyStr "Email")).
Proof.
  apply (renaming_twice_fails Sample.profile). reflexivity.
Defined.

(* ------------------------------------------------------------------ *)
(** ** Empty inputs *)

Lemma no_lines_no_users users_file_path users_file :
  get_user_lines users_file = [] ->
  get_user_info_by_email users_file_path users_file = ([], Ok []).
Proof. intros H. unfold get_user_info_by_email. rewrite H. reflexivity. Qed.

(** C8, as the specification words it: with no users the run succeeds
    and prints an empty JSON array.  The status is 0, but no array is
    printed. *)
Lemma empty_profile_set_prints_no_array :
  let run := create_auth0_import "users.json.gz" "hashes.zip"
               (Gzip []) (Zip [[Sample.hashes_line]]) in
  ~ (status run = 0 /\ stdout run = [[]]).
Proof. intros run [_ H]. vm_compute in H. discriminate H. Qed.

(** C8, as the program has it: when the index of the users is empty,
    whatever the hashes file is, the run says so on the standard
    error and exits with status 0 before the hashes file is read; it
    prints nothing on the standard output, not even an empty array. *)
Theorem empty_profile_set users_file_path hashes_file_path users_file hashes_file events :
  get_user_info_by_email users_file_path users_file = (events, Ok []) ->
  let run := create_auth0_import users_file_path hashes_file_path
               users_file hashes_file in
  run = ((events ++ [Stderr ("No users found in the file: " ++ users_file_path)])%list,
         Raise (SystemExit 0)) /\
  status run = 0 /\
  stdout run = [].
Proof.
  intros H run.
  assert (Hrun : run = ((events ++ [Stderr ("No users found in the file: "
                                            ++ users_file_path)])%list,
                        Raise (SystemExit 0))).
  { unfold run, create_auth0_import. rewrite H. reflexivity. }
  split; [exact Hrun|]. rewrite Hrun. split; [reflexivity|].
  pose proof (get_user_info_by_email_stdout users_file_path users_file) as Hout.
  rewrite H in Hout. unfold stdout in *. simpl in *.
  rewrite flat_map_app, Hout. reflexivity.
Qed.

Lemma empty_profile_set_witness :
  let run := create_auth0_import "users.json.gz" "hashes.zip"
               (Gzip []) (Zip [[Sample.hashes_line]]) in
  run = (([] ++ [Stderr ("No users found in the file: " ++ "users.json.gz")])%list,
         Raise (SystemExit 0)) /\
  status run = 0 /\
  stdout run = [].
Proof.
  apply (empty_profile_set "users.json.gz" "hashes.zip" (Gzip [])
           (Zip [[Sample.hashes_line]]) []).
  reflexivity.
Defined.

(** C2: what the program does when the users are there and the hashes
    are not.  The second test of [create_auth0_import] looks at the
    users again, so the run goes on; [get_auth0_db_name] then asks an
    empty dictionary for its first item, and the run ends with an
    uncaught [StopIteration]: no exit with status 0, and nothing
    printed after what the two indexers printed. *)
Theorem empty_credentials_crash users_file_path hashes_file_path users_file hashes_file
  events events' item users :
  get_user_info_by_email users_file_path users_file = (events, Ok (item :: users)) ->
  get_password_hashes_by_email hashes_file_path hashes_file = (events', Ok []) ->
  let run := create_auth0_import users_file_path hashes_file_path
               users_file hashes_file in
  run = ((events ++ events')%list, Raise StopIteration) /\ status run = 1.
Proof.
  intros Hu Hh run.
  assert (Hrun : run = ((events ++ events')%list, Raise StopIteration)).
  { unfold run, create_auth0_import. rewrite Hu. simpl. rewrite Hh. simpl.
    rewrite !app_nil_r. reflexivity. }
  rewrite Hrun. split; reflexivity.
Qed.

Lemma empty_credentials_crash_witness :
  let run := create_auth0_import "users.json.gz" "hashes.zip"
               (Gzip [Sample.users_line]) (Zip [[]]) in
  run = (([] ++ [])%list, Raise StopIteration) /\ status run = 1.
Proof.
  apply (empty_credentials_crash "users.json.gz" "hashes.zip"
           (Gzip [Sample.users_line]) (Zip [[]]) [] []
           (PyStr "a@x.com", Sample.profile) []);
    reflexivity.
Defined.

(* ------------------------------------------------------------------ *)
(** ** Validation and parsing *)

(** C10: a line with two objects separated by a comma passes
    [verify_valid_ndjson_lines], as the brackets put around it make
    it an array of two, yet [json.loads] refuses the line itself; the
    indexers do not catch that [JSONDecodeError], which ends the run
    after the validation has let the lines through. *)
Theorem validation_does_not_parse_lines :
  verify_valid_ndjson_lines [Sample.two_objects] = Ok true /\
  json.loads Sample.two_objects = Raise JSONDecodeError /\
  (forall users_file_path,
     get_user_info_by_email users_file_path (PlainUsers [Sample.two_objects])
     = ([], Raise JSONDecodeError)) /\
  (forall hashes_file_path,
     get_password_hashes_by_email hashes_file_path (PlainHashes [Sample.two_objects])
     = ([], Raise JSONDecodeError)) /\
  (forall users_file_path hashes_file_path hashes_file,
     let run := create_auth0_import users_file_path hashes_file_path
                  (PlainUsers [Sample.two_objects]) hashes_file in
     run = ([], Raise JSONDecodeError) /\ status run = 1).
Proof.
  repeat split; intros; vm_compute; reflexivity.
Qed.

(* ------------------------------------------------------------------ *)
(** ** The renaming of the fields, in full *)

(** The case analysis of [rename_fields user_info = ...]: every read
    of [user_info] is decided, and the dictionary built stands in the
    hypothesis. *)
Ltac rename_cases H user_info :=
  unfold rename_fields, pop, pop_default, bind in H;
  repeat (repeat (progress (cbn [fst snd] in H; dict_reads_in H));
          match type of H with
          | context [get user_info ?k] =>
              destruct (get user_info k) eqn:?; try discriminate
          | context [truthy ?x] => destruct (truthy x) eqn:?
          | context [match ?v with PyStr _ => _ | _ => _ end] =>
              destruct v; try discriminate
          end).

(** A key that is none of the renamed ones differs from each. *)
Ltac other_key Hk :=
  repeat match goal with
    | |- context [String.eqb ?a ?k] =>
        replace (String.eqb a k) with false
          by (symmetry; apply String.eqb_neq; intros E; apply Hk; rewrite <- E;
              unfold renamed_keys; simpl; repeat ((left; reflexivity) || right))
    end.

(** X1: the renaming leaves every other field of a profile as it is:
    a key that is none of the thirteen the renaming reads or writes
    has the same value, or none, before and after. *)
Theorem rename_fields_passthrough user_info r k :
  rename_fields user_info = Ok r ->
  ~ In k renamed_keys ->
  get r k = get user_info k.
Proof.
  intros H Hk. rename_cases H user_info.
  all: injection H as <-;
    repeat (progress (rewrite ?get_set, ?get_del; other_key Hk)); reflexivity.
Qed.

Lemma rename_fields_passthrough_witness :
  get Cases.nicknamed_renamed "Nickname" = get Cases.nicknamed "Nickname".
Proof.
  apply (rename_fields_passthrough Cases.nicknamed Cases.nicknamed_renamed "Nickname").
  - reflexivity.
  - unfold renamed_keys. simpl. intros H.
    repeat (destruct H as [H|H]; [discriminate H|]). exact H.
Defined.

(** X2: after the renaming the four fields [Email], [Email Verified],
    [Name] and [Id] are gone, the first three with their values under
    [email], [email_verified] and [name]; [Given Name] and
    [Family Name] are gone as well. *)
Theorem rename_fields_moves user_info r :
  rename_fields user_info = Ok r ->
  (get r "Email" = None /\ get r "email" = get user_info "Email") /\
  (get r "Email Verified" = None /\
   get r "email_verified" = get user_info "Email Verified") /\
  (get r "Name" = None /\ get r "name" = get user_info "Name") /\
  (get r "Id" = None /\ exists user_id, get user_info "Id" = Some (PyStr user_id)) /\
  get r "Given Name" = None /\ get r "Family Name" = None.
Proof.
  intros H. rename_cases H user_info.
  all: injection H as <-; dict_reads; repeat split; eauto.
Qed.

Lemma rename_fields_moves_witness :
  (get Cases.nicknamed_renamed "Email" = None /\
   get Cases.nicknamed_renamed "email" = get Cases.nicknamed "Email") /\
  (get Cases.nicknamed_renamed "Email Verified" = None /\
   get Cases.nicknamed_renamed "email_verified" = get Cases.nicknamed "Email Verified") /\
  (get Cases.nicknamed_renamed "Name" = None /\
   get Cases.nicknamed_renamed "name" = get Cases.nicknamed "Name") /\
  (get Cases.nicknamed_renamed "Id" = None /\
   exists user_id, get Cases.nicknamed "Id" = Some (PyStr user_id)) /\
  get Cases.nicknamed_renamed "Given Name" = None /\
  get Cases.nicknamed_renamed "Family Name" = None.
Proof.
  apply (rename_fields_moves Cases.nicknamed Cases.nicknamed_renamed). reflexivity.
Defined.

(** X3: [given_name] is written from [Given Name] only when that
    value is true for Python (not [None], not the empty string);
    otherwise the record keeps the [given_name] it had, if any.  The
    same for [family_name] and [Family Name]. *)
Theorem rename_fields_optional_names user_info r :
  rename_fields user_info = Ok r ->
  get r "given_name" =
    match get user_info "Given Name" with
    | Some given_name =>
        if truthy given_name then Some given_name else get user_info "given_name"
    | None => get user_info "given_name"
    end /\
  get r "family_name" =
    match get user_info "Family Name" with
    | Some family_name =>
        if truthy family_name then Some family_name else get user_info "family_name"
    | None => get user_info "family_name"
    end.
Proof.
  intros H. rename_cases H user_info.
  all: injection H as <-; dict_reads;
    repeat match goal with
      | E : truthy ?x = _ |- context [truthy ?x] => rewrite E
      end; split; reflexivity.
Qed.

Lemma rename_fields_optional_names_witness :
  get Cases.nicknamed_renamed "given_name" =
    match get Cases.nicknamed "Given Name" with
    | Some given_name =>
        if truthy given_name then Some given_name else get Cases.nicknamed "given_name"
    | None => get Cases.nicknamed "given_name"
    end /\
  get Cases.nicknamed_renamed "family_name" =
    match get Cases.nicknamed "Family Name" with
    | Some family_name =>
        if truthy family_name then Some family_name
        else get Cases.nicknamed "family_name"
    | None => get Cases.nicknamed "family_name"
    end.
Proof.
  apply (rename_fields_optional_names Cases.nicknamed Cases.nicknamed_renamed).
  reflexivity.
Defined.

(** X4: the renaming goes through exactly for the profiles that have
    [Email], [Email Verified] and [Name], and an [Id] that is a
    string; [Connection] is not asked for here. *)
Theorem rename_fields_succeeds user_info :
  (exists r, rename_fields user_info = Ok r) <->
  get user_info "Email" <> None /\
  get user_info "Email Verified" <> None /\
  get user_info "Name" <> None /\
  exists user_id, get user_info "Id" = Some (PyStr user_id).
Proof.
  split.
  - intros [r H]. rename_cases H user_info.
    all: repeat split; try discriminate; eauto.
  - intros (HE & HV & HN & user_id & HI).
    destruct (get user_info "Email") as [e|] eqn:E; [|congruence].
    destruct (get user_info "Email Verified") as [ev|] eqn:EV; [|congruence].
    destruct (get user_info "Name") as [nm|] eqn:EN; [|congruence].
    unfold rename_fields, pop, pop_default, bind.
    repeat (repeat (progress (cbn [fst snd]; dict_reads));
            match goal with
            | E : get user_info ?k = _ |- context [get user_info ?k] => rewrite E
            | |- context [get user_info ?k] => destruct (get user_info k) eqn:?
            | |- context [truthy ?x] => destruct (truthy x) eqn:?
            end).
    all: eauto.
Qed.

(** X5: when the renaming fails, it is with [KeyError] for the first
    of [Email], [Email Verified], [Name], [Id] that the profile
    lacks, or, all four being there, with [AttributeError] because
    the [Id] is no string. *)
Theorem rename_fields_error user_info e :
  rename_fields user_info = Raise e ->
  (e = KeyError (PyStr "Email") /\ get user_info "Email" = None) \/
  (e = KeyError (PyStr "Email Verified") /\ get user_info "Email" <> None /\
   get user_info "Email Verified" = None) \/
  (e = KeyError (PyStr "Name") /\ get user_info "Email" <> None /\
   get user_info "Email Verified" <> None /\ get user_info "Name" = None) \/
  (e = KeyError (PyStr "Id") /\ get user_info "Email" <> None /\
   get user_info "Email Verified" <> None /\ get user_info "Name" <> None /\
   get user_info "Id" = None) \/
  (e = AttributeError /\ get user_info "Email" <> None /\
   get user_info "Email Verified" <> None /\ get user_info "Name" <> None /\
   exists v, get user_info "Id" = Some v /\ forall s, v <> PyStr s).
Proof.
  intros H. rename_cases H user_info.
  all: injection H as <-.
  all: first
    [ left; split; reflexivity
    | right; left; repeat split; (reflexivity || discriminate)
    | right; right; left; repeat split; (reflexivity || discriminate)
    | right; right; right; left; repeat split; (reflexivity || discriminate)
    | do 4 right; split; [reflexivity|]; repeat (split; [discriminate|]);
      eexists; split; [reflexivity|discriminate] ].
Qed.

Lemma rename_fields_error_witness :
  (KeyError (PyStr "Name") = KeyError (PyStr "Email") /\
   get Cases.nameless "Email" = None) \/
  (KeyError (PyStr "Name") = KeyError (PyStr "Email Verified") /\
   get Cases.nameless "Email" <> None /\ get Cases.nameless "Email Verified" = None) \/
  (KeyError (PyStr "Name") = KeyError (PyStr "Name") /\
   get Cases.nameless "Email" <> None /\
   get Cases.nameless "Email Verified" <> None /\ get Cases.nameless "Name" = None) \/
  (KeyError (PyStr "Name") = KeyError (PyStr "Id") /\
   get Cases.nameless "Email" <> None /\
   get Cases.nameless "Email Verified" <> None /\ get Cases.nameless "Name" <> None /\
   get Cases.nameless "Id" = None) \/
  (KeyError (PyStr "Name") = AttributeError /\ get Cases.nameless "Email" <> None /\
   get Cases.nameless "Email Verified" <> None /\ get Cases.nameless "Name" <> None /\
   exists v, get Cases.nameless "Id" = Some v /\ forall s, v <> PyStr s).
Proof.
  apply (rename_fields_error Cases.nameless (KeyError (PyStr "Name"))). reflexivity.
Defined.

(* ------------------------------------------------------------------ *)
(** ** The indexers *)

Lemma key_eqb_congr a b c : key_eqb a b = true -> key_eqb a c = key_eqb b c.
Proof.
  intros H. destruct (key_eqb b c) eqn:E.
  - apply key_eqb_trans with b; assumption.
  - destruct (key_eqb a c) eqn:E'; [|reflexivity].
    rewrite key_eqb_sym in H. rewrite <- E. symmetry.
    apply key_eqb_trans with a; assumption.
Qed.

(** Reading an index after an assignment. *)
Lemma index_get_set (d : index) e (r : record) k :
  index_get (dict_set key_eqb d e r) k = if key_eqb e k then Some r else index_get d k.
Proof.
  unfold index_get. induction d as [|[k0 r0] d IH]; cbn [dict_set dict_get].
  - reflexivity.
  - destruct (key_eqb k0 e) eqn:E0; cbn [dict_get].
    + rewrite (key_eqb_congr _ _ k E0). destruct (key_eqb e k); reflexivity.
    + rewrite IH. destruct (key_eqb k0 k) eqn:E1; [|reflexivity].
      destruct (key_eqb e k) eqn:E2; [|reflexivity].
      rewrite key_eqb_sym in E2. rewrite (key_eqb_trans _ _ _ E1 E2) in E0.
      discriminate.
Qed.

(** One turn of the loop of an indexer. *)
Lemma index_lines_step field line lines d :
  index_lines field (line :: lines) d =
  match json.loads line with
  | Ok (PyDict user_json) =>
      match get user_json field with
      | Some email =>
          match key_of email with
          | Some _ => index_lines field lines (dict_set key_eqb d email user_json)
          | None => Raise TypeError
          end
      | None => Raise (KeyError (PyStr field))
      end
  | Ok _ => Raise TypeError
  | Raise e => Raise e
  end.
Proof.
  cbn [index_lines].
  destruct (json.loads line) as [[| | | | | |user_json]|e]; try reflexivity.
  cbn [bind]. unfold getitem, index_set.
  destruct (get user_json field) as [email|]; [|reflexivity]. cbn [bind].
  destruct (key_of email); reflexivity.
Qed.

(** X6: an indexer returns an index exactly when every line is a JSON
    object that has the key field ([Email] for the users, [email] for
    the hashes) with a value that can be a dictionary key. *)
Theorem index_lines_succeeds field lines : forall d0,
  (exists d, index_lines field lines d0 = Ok d) <-> Forall (line_ok field) lines.
Proof.
  induction lines as [|line lines IH]; intros d0.
  - split; [constructor|]. intros _. exists d0. reflexivity.
  - rewrite index_lines_step. split.
    + intros [d H].
      destruct (json.loads line) as [[| | | | | |user_json]|e] eqn:E; try discriminate.
      destruct (get user_json field) as [email|] eqn:G; [|discriminate].
      destruct (key_of email) eqn:K; [|discriminate].
      constructor.
      * exists user_json, email. repeat split; congruence.
      * apply (IH (dict_set key_eqb d0 email user_json)). eauto.
    + intros H. inversion H as [|? ? (user_json & email & E & G & K) Hl]; subst.
      rewrite E, G. destruct (key_of email); [|congruence].
      apply IH. exact Hl.
Qed.

Lemma find_app {A} (f : A -> bool) l l' :
  find f (l ++ l') = match find f l with Some x => Some x | None => find f l' end.
Proof.
  induction l as [|x l IH]; cbn [find app]; [reflexivity|].
  destruct (f x); [reflexivity|exact IH].
Qed.

(** What an index answers after the lines of a file. *)
Lemma index_lines_lookup field lines : forall d0 d items k,
  index_lines field lines d0 = Ok d ->
  decoded field lines items ->
  index_get d k =
  match find (fun item => key_eqb (fst item) k) (rev items) with
  | Some item => Some (snd item)
  | None => index_get d0 k
  end.
Proof.
  induction lines as [|line lines IH]; intros d0 d items k H Hd.
  - inversion Hd; subst. injection H as <-. reflexivity.
  - inversion Hd as [|? [email user_json] ? items' [E G] Hd']; subst.
    cbn [fst snd] in *. rewrite index_lines_step, E, G in H.
    destruct (key_of email); [|discriminate].
    rewrite (IH _ _ _ k H Hd'). cbn [rev]. rewrite find_app.
    destruct (find (fun item => key_eqb (fst item) k) (rev items')); [reflexivity|].
    cbn [find fst snd]. rewrite index_get_set.
    destruct (key_eqb email k); reflexivity.
Qed.

(** X7: later lines win.  The index answers a key with the record of
    the last line whose key field equals it, and with what it had
    before when there is no such line. *)
Theorem index_lines_last_wins field lines : forall d0 d items k,
  index_lines field lines d0 = Ok d ->
  decoded field lines items ->
  index_get d k =
  match find (fun item => key_eqb (fst item) k) (rev items) with
  | Some item => Some (snd item)
  | None => index_get d0 k
  end.
Proof. exact (index_lines_lookup field lines). Qed.

Lemma three_lines_decoded : decoded "Email" Cases.three_lines Cases.three_items.
Proof.
  unfold decoded, Cases.three_lines, Cases.three_items.
  repeat (constructor; [split; [vm_compute; reflexivity|reflexivity]|]).
  constructor.
Defined.

Lemma index_lines_last_wins_witness :
  index_get Cases.two_entries (PyStr "a@x.com") =
  match find (fun item => key_eqb (fst item) (PyStr "a@x.com")) (rev Cases.three_items) with
  | Some item => Some (snd item)
  | None => index_get [] (PyStr "a@x.com")
  end.
Proof.
  apply (index_lines_last_wins "Email" Cases.three_lines [] Cases.two_entries
           Cases.three_items (PyStr "a@x.com")).
  - vm_compute. reflexivity.
  - exact three_lines_decoded.
Defined.

Lemma dict_set_keys (d : index) e (r : record) :
  map fst (dict_set key_eqb d e r) =
  if existsb (fun s => key_eqb s e) (map fst d) then map fst d
  else (map fst d ++ [e])%list.
Proof.
  induction d as [|[k0 r0] d IH]; cbn [dict_set map fst existsb app].
  - reflexivity.
  - destruct (key_eqb k0 e); cbn [orb map fst]; [reflexivity|].
    rewrite IH. destruct (existsb (fun s => key_eqb s e) (map fst d)); reflexivity.
Qed.

(** X8: the keys of an index stand in the order in which they first
    appear in the file; a later line with a key already there changes
    the record, not the place. *)
Theorem index_lines_order field lines : forall d0 d items,
  index_lines field lines d0 = Ok d ->
  decoded field lines items ->
  map fst d = (map fst d0 ++ first_keys (map fst d0) (map fst items))%list.
Proof.
  induction lines as [|line lines IH]; intros d0 d items H Hd.
  - inversion Hd; subst. injection H as <-. cbn. rewrite app_nil_r. reflexivity.
  - inversion Hd as [|? [email user_json] ? items' [E G] Hd']; subst.
    cbn [fst snd] in *. rewrite index_lines_step, E, G in H.
    destruct (key_of email); [|discriminate].
    rewrite (IH _ _ _ H Hd'), dict_set_keys. cbn [map fst first_keys].
    destruct (existsb (fun s => key_eqb s email) (map fst d0)); [reflexivity|].
    rewrite <- app_assoc. reflexivity.
Qed.

Lemma index_lines_order_witness :
  map fst Cases.two_entries =
  (map fst (@nil (pyobj * record))
   ++ first_keys (map fst (@nil (pyobj * record))) (map fst Cases.three_items))%list.
Proof.
  apply (index_lines_order "Email" Cases.three_lines [] Cases.two_entries
           Cases.three_items).
  - vm_compute. reflexivity.
  - exact three_lines_decoded.
Defined.

Lemma dict_set_nonempty (d : index) e (r : record) : dict_set key_eqb d e r <> [].
Proof. destruct d as [|[k0 r0] d]; cbn; [|destruct (key_eqb k0 e)]; discriminate. Qed.

Lemma index_lines_nonempty field lines : forall d0 d,
  index_lines field lines d0 = Ok d -> d0 <> [] -> d <> [].
Proof.
  induction lines as [|line lines IH]; intros d0 d H Hne.
  - injection H as <-. exact Hne.
  - rewrite index_lines_step in H.
    destruct (json.loads line) as [[| | | | | |user_json]|e]; try discriminate.
    destruct (get user_json field) as [email|]; [|discriminate].
    destruct (key_of email); [|discriminate].
    eapply IH; [exact H|]. apply dict_set_nonempty.
Qed.

(** X9: the index of the users is empty exactly when the users file
    has no line at all; the test of line 114 is a test for an empty
    file. *)
Theorem no_users_iff_no_lines users_file_path users_file ev users :
  get_user_info_by_email users_file_path users_file = (ev, Ok users) ->
  (users = [] <-> get_user_lines users_file = []).
Proof.
  unfold get_user_info_by_email, lift, when, io_bind.
  destruct (verify_valid_ndjson_lines (get_user_lines users_file)) as [[|]|];
    cbn; try discriminate.
  destruct (index_lines "Email" (get_user_lines users_file) []) as [d|] eqn:E;
    [|discriminate].
  intros [= _ <-]. destruct (get_user_lines users_file) as [|line lines].
  - injection E as <-. tauto.
  - split; [|discriminate]. intros ->. exfalso.
    rewrite index_lines_step in E.
    destruct (json.loads line) as [[| | | | | |user_json]|e]; try discriminate.
    destruct (get user_json "Email") as [email|]; [|discriminate].
    destruct (key_of email); [|discriminate].
    eapply index_lines_nonempty; [exact E| |reflexivity]. apply dict_set_nonempty.
Qed.

Lemma no_users_iff_no_lines_witness :
  Sample.users = [] <-> get_user_lines (Gzip [Sample.users_line]) = [].
Proof.
  apply (no_users_iff_no_lines "users.json.gz" (Gzip [Sample.users_line]) []
           Sample.users).
  vm_compute. reflexivity.
Defined.

(* ------------------------------------------------------------------ *)
(** ** The loop, as a filter and a map *)

Lemma contributes_cases db hashes item c :
  contributes db hashes item c ->
  exists r0, rename_fields (snd item) = Ok r0 /\
  if is_local db item then
    key_of (fst item) <> None /\
    match index_get hashes (fst item) with
    | Some info => exists h, get info "passwordHash" = Some h /\
                             c = ([set r0 "password_hash" h], [])
    | None => c = ([r0], [fst item])
    end
  else c = ([], []).
Proof.
  intros Hc. unfold is_local.
  inversion Hc as [ ? ? r0 c0 Hren Hconn Heq
                  | ? ? r0 c0 Hren Hconn Heq Hk Hg
                  | ? ? r0 c0 info h Hren Hconn Heq Hk Hg Hh ]; subst;
    cbn [fst snd]; exists r0; (split; [assumption|]);
    pose proof (rename_fields_ok _ _ Hren) as (_ & _ & _ & _ & _ & _ & _ & HC & _);
    rewrite <- HC, Hconn, Heq.
  - reflexivity.
  - rewrite Hg. auto.
  - rewrite Hg. eauto.
Qed.

Lemma missing_is_filter users hashes db output missing :
  get_auth0_db_name hashes = Ok db ->
  reconcile users hashes = Ok (output, missing) ->
  missing = map fst (filter (fun item => is_local db item && negb (has_hash hashes item))
                            users).
Proof.
  intros Hdb (db' & cs & Hdb' & Hcs & _ & ->)%reconcile_contributes.
  assert (db' = db) as -> by congruence. clear Hdb Hdb'.
  induction Hcs as [|item c users cs Hc _ IH]; [reflexivity|].
  cbn [flat_map filter]. rewrite IH.
  destruct (contributes_cases _ _ _ _ Hc) as (r0 & _ & Hcase). unfold has_hash.
  destruct (is_local db item); cbn [andb].
  - destruct Hcase as [_ Hcase].
    destruct (index_get hashes (fst item)) as [info|]; cbn [negb].
    + destruct Hcase as (h & _ & ->). reflexivity.
    + rewrite Hcase. reflexivity.
  - rewrite Hcase. reflexivity.
Qed.

(** X10: the users reported as missing from the hashes are exactly
    the local users (their [Connection] is the database name) without
    an entry in the hashes, each once, in the order of the index. *)
Theorem missing_list_exact users hashes db output missing :
  get_auth0_db_name hashes = Ok db ->
  reconcile users hashes = Ok (output, missing) ->
  missing = map fst (filter (fun item => is_local db item && negb (has_hash hashes item))
                            users).
Proof. exact (missing_is_filter users hashes db output missing). Qed.

Lemma missing_list_exact_witness :
  [PyStr "c@x.com"] =
  map fst (filter (fun item => is_local (PyStr "Local") item
                               && negb (has_hash Sample.two_hashes item))
                  Sample.three_users).
Proof.
  apply (missing_list_exact Sample.three_users Sample.two_hashes (PyStr "Local")
           Sample.three_output [PyStr "c@x.com"]); reflexivity.
Defined.

(** X11: the output has one record for each local user and none for
    any other, in the order of the index: the renamed profile, with
    the [passwordHash] of the user's entry as [password_hash] when
    the hashes have an entry. *)
Theorem output_in_index_order users hashes db output missing :
  get_auth0_db_name hashes = Ok db ->
  reconcile users hashes = Ok (output, missing) ->
  Forall2 (appended hashes) (filter (is_local db) users) output.
Proof.
  intros Hdb (db' & cs & Hdb' & Hcs & -> & _)%reconcile_contributes.
  assert (db' = db) as -> by congruence. clear Hdb Hdb'.
  induction Hcs as [|item c users cs Hc _ IH]; [constructor|].
  cbn [flat_map filter].
  destruct (contributes_cases _ _ _ _ Hc) as (r0 & Hren & Hcase).
  destruct (is_local db item).
  - destruct Hcase as [_ Hcase].
    assert (Hone : exists r, fst c = [r] /\ appended hashes item r).
    { unfold appended.
      destruct (index_get hashes (fst item)) as [info|].
      - destruct Hcase as (h & Hh & ->). eexists. split; [reflexivity|].
        exists r0. rewrite Hh. auto.
      - rewrite Hcase. eexists. split; [reflexivity|]. exists r0. auto. }
    destruct Hone as (r & -> & Hr). constructor; assumption.
  - rewrite Hcase. exact IH.
Qed.

Lemma output_in_index_order_witness :
  Forall2 (appended Sample.two_hashes)
    (filter (is_local (PyStr "Local")) Sample.three_users) Sample.three_output.
Proof.
  apply (output_in_index_order Sample.three_users Sample.two_hashes (PyStr "Local")
           Sample.three_output [PyStr "c@x.com"]); reflexivity.
Defined.

Lemma loop_body_acceptable db hashes item :
  acceptable db hashes item ->
  forall acc, exists acc', loop_body db hashes acc item = Ok acc'.
Proof.
  intros ([r0 Hren] & c & Hc & Hlocal) [out miss]. destruct item as [email ui].
  cbn [fst snd] in *. unfold loop_body. rewrite Hren. cbn [bind].
  pose proof (rename_fields_ok _ _ Hren) as (_ & _ & _ & _ & _ & _ & _ & HC & _).
  unfold getitem. rewrite HC, Hc. cbn [bind].
  destruct (py_eq c db); [|eauto].
  destruct (Hlocal eq_refl) as [Hk Hinfo]. unfold index_getitem.
  destruct (key_of email); [|congruence].
  destruct (index_get hashes email) as [info|]; [|eauto].
  specialize (Hinfo info eq_refl).
  destruct (get info "passwordHash"); [|congruence]. cbn [bind]. eauto.
Qed.

Lemma loop_acceptable db hashes items :
  Forall (acceptable db hashes) items ->
  forall acc, exists acc', loop db hashes items acc = Ok acc'.
Proof.
  induction 1 as [|item items Hi _ IH]; intros acc; cbn [loop]; [eauto|].
  destruct (loop_body_acceptable _ _ _ Hi acc) as [acc' ->]. cbn [bind]. apply IH.
Qed.

(** X12: all or nothing.  The reconciliation returns its two lists
    exactly when the first entry of the hashes has a [connection],
    every profile, local or not, can be renamed and has a
    [Connection], and every entry found for a local user has a
    [passwordHash]; one profile that fails, even of another
    connection, leaves no output at all. *)
Theorem reconcile_returns_iff users hashes :
  (exists result, reconcile users hashes = Ok result) <->
  exists db, get_auth0_db_name hashes = Ok db /\ Forall (acceptable db hashes) users.
Proof.
  split.
  - intros [[output missing] H].
    apply reconcile_contributes in H as (db & cs & Hdb & Hcs & _).
    exists db. split; [assumption|]. clear Hdb.
    induction Hcs as [|item c users cs Hc _ IH]; constructor; [|exact IH].
    destruct (contributes_cases _ _ _ _ Hc) as (r0 & Hren & Hcase).
    split; [eauto|]. unfold is_local in Hcase.
    pose proof (rename_fields_ok _ _ Hren) as (_ & _ & _ & _ & _ & _ & _ & HC & _).
    inversion Hc as [ ? ? r1 c0 Hren' Hconn Heq
                    | ? ? r1 c0 Hren' Hconn Heq Hk Hg
                    | ? ? r1 c0 info h Hren' Hconn Heq Hk Hg Hh ]; subst;
      cbn [fst snd] in *; assert (r1 = r0) as -> by congruence;
      exists c0; (split; [congruence|]); intros Heq'.
    + congruence.
    + split; [assumption|]. intros info Hinfo. congruence.
    + split; [assumption|]. intros info' Hinfo. congruence.
  - intros (db & Hdb & Hall). unfold reconcile. rewrite Hdb. cbn [bind].
    apply loop_acceptable. exact Hall.
Qed.

Lemma float_key_not_str f s : float_key f <> KStr s.
Proof.
  unfold float_key. destruct (Float.canon f) as [| |neg m e]; try discriminate.
  destruct (0 <=? e); discriminate.
Qed.

(** Only the same string is the same key as a string. *)
Lemma key_eqb_str k s : key_eqb k (PyStr s) = true -> k = PyStr s.
Proof.
  intros (x & Hk & Hs)%key_eqb_true. cbn in Hs. injection Hs as <-.
  destruct k as [|b|z|f|t|l|d]; cbn in Hk; try discriminate.
  - injection Hk as Hk. destruct (float_key_not_str _ _ Hk).
  - congruence.
Qed.

Lemma index_get_str (d : index) s info :
  index_get d (PyStr s) = Some info -> In (PyStr s, info) d.
Proof.
  unfold index_get. induction d as [|[k r] d IH]; cbn [dict_get]; [discriminate|].
  destruct (key_eqb k (PyStr s)) eqn:E.
  - intros [= <-]. apply key_eqb_str in E. subst. left. reflexivity.
  - intros H. right. auto.
Qed.

(** X13: the join is on the exact email.  A local user whose email
    string is the key of no entry of the hashes, whatever entries
    there are under other spellings of it (other case, say), is
    reported as missing. *)
Theorem join_is_exact users hashes db output missing email user_info connection :
  get_auth0_db_name hashes = Ok db ->
  reconcile users hashes = Ok (output, missing) ->
  In (PyStr email, user_info) users ->
  get user_info "Connection" = Some connection ->
  py_eq connection db = true ->
  (forall password_hash_info, ~ In (PyStr email, password_hash_info) hashes) ->
  In (PyStr email) missing.
Proof.
  intros Hdb Hr Hin Hc Heq Hnone.
  rewrite (missing_is_filter _ _ _ _ _ Hdb Hr).
  apply (in_map fst _ (PyStr email, user_info)). apply filter_In. split; [assumption|].
  unfold is_local, has_hash. cbn [fst snd]. rewrite Hc, Heq.
  destruct (index_get hashes (PyStr email)) as [info|] eqn:E; [|reflexivity].
  apply index_get_str in E. destruct (Hnone _ E).
Qed.

Lemma join_is_exact_witness : In (PyStr "A@x.com") [PyStr "A@x.com"].
Proof.
  apply (join_is_exact Cases.capital_users Sample.hashes (PyStr "Local")
           [Cases.capital_output] [PyStr "A@x.com"] "A@x.com" Cases.capital
           (PyStr "Local")); try reflexivity.
  - simpl. auto.
  - intros info [H|[]]. discriminate H.
Defined.

(* ------------------------------------------------------------------ *)
(** ** The run, stage by stage *)

Lemma for_each_print_err_obj l : for_each l print_err_obj = (map StderrObj l, Ok tt).
Proof.
  induction l as [|x l IH]; [reflexivity|].
  cbn [for_each]. rewrite IH. reflexivity.
Qed.

(** The run, stage by stage. *)
Lemma create_auth0_import_stages users_file_path hashes_file_path users_file hashes_file :
  create_auth0_import users_file_path hashes_file_path users_file hashes_file =
  match get_user_info_by_email users_file_path users_file with
  | (ev, Raise e) => (ev, Raise e)
  | (ev, Ok []) =>
      ((ev ++ [Stderr ("No users found in the file: " ++ users_file_path)])%list,
       Raise (SystemExit 0))
  | (ev, Ok (item :: users)) =>
      match get_password_hashes_by_email hashes_file_path hashes_file with
      | (ev', Raise e) => ((ev ++ ev')%list, Raise e)
      | (ev', Ok hashes) =>
          match reconcile (item :: users) hashes with
          | Raise e => ((ev ++ ev')%list, Raise e)
          | Ok (output, missing) =>
              ((ev ++ ev' ++ StdoutJson output :: missing_report missing)%list, Ok tt)
          end
      end
  end.
Proof.
  unfold create_auth0_import.
  destruct (get_user_info_by_email users_file_path users_file) as [ev [[|item users]|e]];
    try reflexivity.
  cbn [io_bind when is_empty ret].
  destruct (get_password_hashes_by_email hashes_file_path hashes_file) as [ev' [hashes|e]];
    cbn [io_bind lift app]; [|rewrite ?app_nil_r; reflexivity].
  destruct (reconcile (item :: users) hashes) as [[output missing]|e];
    cbn [io_bind app]; [|rewrite ?app_nil_r; reflexivity].
  unfold print_json, print_err, when. cbn [io_bind app].
  destruct missing as [|m missing].
  - reflexivity.
  - cbn [List.length Nat.eqb negb io_bind app]. rewrite for_each_print_err_obj.
    cbn [missing_report app]. reflexivity.
Qed.

Lemma get_user_info_by_email_stages users_file_path users_file :
  get_user_info_by_email users_file_path users_file =
  match verify_valid_ndjson_lines (get_user_lines users_file) with
  | Ok true => ([], index_lines "Email" (get_user_lines users_file) [])
  | Ok false =>
      ([Stderr ("The users export file contains invalid json (ndjson) content: "
                ++ users_file_path)], Raise (SystemExit (-1)))
  | Raise e => ([], Raise e)
  end.
Proof.
  unfold get_user_info_by_email, lift, when, io_bind.
  destruct (verify_valid_ndjson_lines (get_user_lines users_file)) as [[|]|];
    reflexivity.
Qed.

Lemma get_password_hashes_by_email_stages hashes_file_path hashes_file :
  get_password_hashes_by_email hashes_file_path hashes_file =
  match get_hash_lines hashes_file_path hashes_file with
  | (ev, Raise e) => (ev, Raise e)
  | (ev, Ok hash_lines) =>
      match verify_valid_ndjson_lines hash_lines with
      | Ok true => (ev, index_lines "email" hash_lines [])
      | Ok false =>
          ((ev ++ [Stderr ("The password hash export file contains invalid json (ndjson) content: "
                           ++ hashes_file_path)])%list, Raise (SystemExit (-1)))
      | Raise e => (ev, Raise e)
      end
  end.
Proof.
  unfold get_password_hashes_by_email.
  destruct (get_hash_lines hashes_file_path hashes_file) as [ev [hash_lines|e]];
    [|reflexivity].
  unfold lift, when. cbn [io_bind app].
  destruct (verify_valid_ndjson_lines hash_lines) as [[|]|]; cbn [io_bind app negb ret];
    rewrite ?app_nil_r; reflexivity.
Qed.

Lemma get_hash_lines_stages hashes_file_path hashes_file :
  get_hash_lines hashes_file_path hashes_file =
  match hashes_file with
  | Zip [lines] | PlainHashes lines => ([], Ok lines)
  | Zip _ =>
      ([Stderr ("The zip file with the hash export should contain exactly one file: "
                ++ hashes_file_path)], Raise (SystemExit (-1)))
  end.
Proof. destruct hashes_file as [[|lines [|]]|]; reflexivity. Qed.

Lemma index_lines_raises field lines : forall d e,
  index_lines field lines d = Raise e -> uncaught e.
Proof.
  induction lines as [|line lines IH]; cbn [index_lines]; intros d e H; [discriminate|].
  destruct (json.loads line) as [j|e'] eqn:E.
  - cbn [bind] in H. destruct j as [| | | | | |user_json];
      try (injection H as <-; exact I).
    unfold getitem, index_set in H.
    destruct (get user_json field) as [email|]; cbn [bind] in H.
    + destruct (key_of email); cbn [bind] in H; [eauto|injection H as <-; exact I].
    + injection H as <-. exact I.
  - cbn [bind] in H. injection H as <-.
    apply json_total.loads_raises in E. subst. exact I.
Qed.

Lemma rename_fields_raises user_info e : rename_fields user_info = Raise e -> uncaught e.
Proof.
  unfold rename_fields, pop, bind.
  repeat match goal with
    | |- context [match get ?d ?k with _ => _ end] => destruct (get d k)
    | |- context [let '(_, _) := pop_default ?d ?k in _] => destruct (pop_default d k)
    | |- context [match fst ?p with _ => _ end] => destruct (fst p)
    end; intros H; try discriminate; injection H as <-; exact I.
Qed.

Lemma loop_raises db hashes items : forall acc e,
  loop db hashes items acc = Raise e -> uncaught e.
Proof.
  induction items as [|[email user_info] items IH]; cbn [loop]; intros [out miss] e H;
    [discriminate|].
  destruct (loop_body db hashes (out, miss) (email, user_info)) as [acc'|e'] eqn:E;
    cbn [bind] in H; [eauto|].
  injection H as <-. unfold loop_body in E.
  destruct (rename_fields user_info) as [r|e0] eqn:Er; cbn [bind] in E.
  - unfold getitem, index_getitem in E.
    destruct (get r "Connection") as [c|]; cbn [bind] in E;
      [|injection E as <-; exact I].
    destruct (py_eq c db); [|discriminate].
    destruct (key_of email); [|injection E as <-; exact I].
    destruct (index_get hashes email) as [info|]; [|discriminate].
    destruct (get info "passwordHash"); cbn [bind] in E; [discriminate|].
    injection E as <-. exact I.
  - injection E as <-. eapply rename_fields_raises; eauto.
Qed.

Lemma reconcile_raises users hashes e : reconcile users hashes = Raise e -> uncaught e.
Proof.
  unfold reconcile, get_auth0_db_name, getitem.
  destruct hashes as [|[k h] hashes]; cbn [bind]; [intros [= <-]; exact I|].
  destruct (get h "connection"); cbn [bind]; [apply loop_raises|intros [= <-]; exact I].
Qed.

Lemma status_uncaught {A} (ev : list event) e : uncaught e -> status (A:=A) (ev, Raise e) = 1.
Proof. destruct e; simpl; tauto. Qed.

Lemma get_user_info_by_email_shape users_file_path users_file :
  let r := get_user_info_by_email users_file_path users_file in
  (exists d, r = ([], Ok d)) \/
  r = ([Stderr ("The users export file contains invalid json (ndjson) content: "
                ++ users_file_path)], Raise (SystemExit (-1))) \/
  (exists e, r = ([], Raise e) /\ uncaught e).
Proof.
  intros r. subst r. rewrite get_user_info_by_email_stages.
  destruct (verify_valid_ndjson_lines_total (get_user_lines users_file)) as [[|] ->].
  - destruct (index_lines "Email" (get_user_lines users_file) []) as [d|e] eqn:E.
    + left. eauto.
    + right. right. exists e. split; [reflexivity|]. eapply index_lines_raises; eauto.
  - right. left. reflexivity.
Qed.

Lemma get_password_hashes_by_email_shape hashes_file_path hashes_file :
  let r := get_password_hashes_by_email hashes_file_path hashes_file in
  (exists d, r = ([], Ok d)) \/
  (exists msg, r = ([Stderr msg], Raise (SystemExit (-1)))) \/
  (exists e, r = ([], Raise e) /\ uncaught e).
Proof.
  intros r. subst r. rewrite get_password_hashes_by_email_stages, get_hash_lines_stages.
  assert (H : forall lines,
    let r := match verify_valid_ndjson_lines lines with
             | Ok true => ([], index_lines "email" lines [])
             | Ok false =>
                 (([] ++ [Stderr ("The password hash export file contains invalid json (ndjson) content: "
                                  ++ hashes_file_path)])%list, Raise (SystemExit (-1)))
             | Raise e => ([], Raise e)
             end in
    (exists d, r = ([], Ok d)) \/
    (exists msg, r = ([Stderr msg], Raise (SystemExit (-1)))) \/
    (exists e, r = ([], Raise e) /\ uncaught e)).
  { intros lines. destruct (verify_valid_ndjson_lines_total lines) as [[|] ->]; cbn zeta.
    - destruct (index_lines "email" lines []) as [d|e] eqn:E.
      + left. eauto.
      + right. right. exists e. split; [reflexivity|]. eapply index_lines_raises; eauto.
    - right. left. eexists. reflexivity. }
  destruct hashes_file as [[|lines [|]]|lines]; try apply H;
    right; left; eexists; reflexivity.
Qed.

Lemma missing_report_quiet {A} output missing (r : res A) :
  stdout (StdoutJson output :: missing_report missing, r) = [output].
Proof.
  unfold stdout. cbn [fst flat_map app]. f_equal.
  destruct missing as [|m0 m]; [reflexivity|]. cbn [missing_report flat_map app].
  generalize (m0 :: m). intros l. induction l as [|x l IH]; [reflexivity|exact IH].
Qed.

Lemma main_shape argv users_at hashes_at :
  let run := main argv users_at hashes_at in
  (exists output missing,
     run = (StdoutJson output :: missing_report missing, Ok tt)) \/
  (exists msg, run = ([Stderr msg], Raise (SystemExit 0))) \/
  (exists msg, run = ([Stderr msg], Raise (SystemExit (-1)))) \/
  run = ([Stderr usage], Raise (SystemExit 1)) \/
  (exists e, run = ([], Raise e) /\ uncaught e).
Proof.
  intros run. subst run. unfold main.
  destruct argv as [|a0 [|users_file_path [|hashes_file_path [|]]]];
    try (right; right; right; left; reflexivity).
  rewrite create_auth0_import_stages.
  destruct (get_user_info_by_email_shape users_file_path (users_at users_file_path))
    as [[d ->]|[->|(e & -> & He)]].
  - destruct d as [|item users].
    + right. left. eexists. reflexivity.
    + destruct (get_password_hashes_by_email_shape hashes_file_path
                  (hashes_at hashes_file_path))
        as [[h ->]|[[msg ->]|(e & -> & He)]].
      * destruct (reconcile (item :: users) h) as [[output missing]|e] eqn:E.
        -- left. exists output, missing. reflexivity.
        -- do 4 right. exists e. split; [reflexivity|].
           eapply reconcile_raises; eauto.
      * right. right. left. eexists. reflexivity.
      * do 4 right. eauto.
  - right. right. left. eexists. reflexivity.
  - do 4 right. eauto.
Qed.

(** X14: a run of the script ends in one of five ways.  It returns,
    having printed the output list and then, if there are any, the
    users missing from the hashes; or it exits with 0 after one line
    on the standard error (no users); or with -1 after one line (a
    file refused); or with 1 after the usage line (not two
    arguments); or it dies of an exception of the program or the
    decoder with nothing printed at all. *)
Theorem main_outcome argv users_at hashes_at :
  let run := main argv users_at hashes_at in
  (exists output missing,
     run = (StdoutJson output :: missing_report missing, Ok tt)) \/
  (exists msg, run = ([Stderr msg], Raise (SystemExit 0))) \/
  (exists msg, run = ([Stderr msg], Raise (SystemExit (-1)))) \/
  run = ([Stderr usage], Raise (SystemExit 1)) \/
  (exists e, run = ([], Raise e) /\ uncaught e).
Proof. exact (main_shape argv users_at hashes_at). Qed.

(** X15: the exit status of the script is 0, 1 or 255, whatever the
    arguments and the files. *)
Theorem exit_statuses argv users_at hashes_at :
  let code := status (main argv users_at hashes_at) in
  code = 0 \/ code = 1 \/ code = 255.
Proof.
  intros code. subst code.
  destruct (main_shape argv users_at hashes_at)
    as [(o & m & ->)|[(msg & ->)|[(msg & ->)|[->|(e & -> & He)]]]]; auto.
  right. left. apply status_uncaught. exact He.
Qed.

(** X16: a JSON document reaches the standard output only in a run
    that returns, and then it is the only one; a run that ends in an
    exception or in [exit] prints none, so there is no partial
    output. *)
Theorem output_only_on_success argv users_at hashes_at :
  let run := main argv users_at hashes_at in
  (snd run = Ok tt /\ exists output, stdout run = [output]) \/
  (snd run <> Ok tt /\ stdout run = []).
Proof.
  intros run. subst run.
  destruct (main_shape argv users_at hashes_at)
    as [(o & m & ->)|[(msg & ->)|[(msg & ->)|[->|(e & -> & He)]]]];
    try (right; split; [discriminate|reflexivity]).
  left. split; [reflexivity|]. exists o. apply missing_report_quiet.
Qed.

(** X17: a users file that fails the validation ends the run at once,
    whatever the hashes file is: one line on the standard error that
    names the file, [exit(-1)] (status 255), nothing on the standard
    output. *)
Theorem malformed_users_abort users_file_path hashes_file_path users_file hashes_file :
  verify_valid_ndjson_lines (get_user_lines users_file) = Ok false ->
  let run := create_auth0_import users_file_path hashes_file_path
               users_file hashes_file in
  run = ([Stderr ("The users export file contains invalid json (ndjson) content: "
                  ++ users_file_path)], Raise (SystemExit (-1))) /\
  status run = 255 /\ stdout run = [].
Proof.
  intros H run.
  assert (Hrun : run = ([Stderr ("The users export file contains invalid json (ndjson) content: "
                                 ++ users_file_path)], Raise (SystemExit (-1)))).
  { unfold run. rewrite create_auth0_import_stages, get_user_info_by_email_stages, H.
    reflexivity. }
  rewrite Hrun. auto.
Qed.

Lemma malformed_users_abort_witness :
  let run := create_auth0_import "users.json" "hashes.zip"
               (PlainUsers [Cases.broken_line]) (Zip []) in
  run = ([Stderr ("The users export file contains invalid json (ndjson) content: "
                  ++ "users.json")], Raise (SystemExit (-1))) /\
  status run = 255 /\ stdout run = [].
Proof.
  apply (malformed_users_abort "users.json" "hashes.zip"
           (PlainUsers [Cases.broken_line]) (Zip [])).
  vm_compute. reflexivity.
Defined.

(** X18: with users in the index, a hashes file that fails the
    validation ends the run the same way: one line on the standard
    error that names the hashes file, status 255, no output. *)
Theorem malformed_hashes_abort users_file_path hashes_file_path users_file hashes_file
  item users hash_lines :
  get_user_info_by_email users_file_path users_file = ([], Ok (item :: users)) ->
  get_hash_lines hashes_file_path hashes_file = ([], Ok hash_lines) ->
  verify_valid_ndjson_lines hash_lines = Ok false ->
  let run := create_auth0_import users_file_path hashes_file_path
               users_file hashes_file in
  run = ([Stderr ("The password hash export file contains invalid json (ndjson) content: "
                  ++ hashes_file_path)], Raise (SystemExit (-1))) /\
  status run = 255 /\ stdout run = [].
Proof.
  intros Hu Hl Hv run.
  assert (Hrun : run = ([Stderr ("The password hash export file contains invalid json (ndjson) content: "
                                 ++ hashes_file_path)], Raise (SystemExit (-1)))).
  { unfold run.
    rewrite create_auth0_import_stages, Hu, get_password_hashes_by_email_stages, Hl, Hv.
    reflexivity. }
  rewrite Hrun. auto.
Qed.

Lemma malformed_hashes_abort_witness :
  let run := create_auth0_import "users.json.gz" "hashes.json"
               (Gzip [Sample.users_line]) (PlainHashes [Cases.broken_line]) in
  run = ([Stderr ("The password hash export file contains invalid json (ndjson) content: "
                  ++ "hashes.json")], Raise (SystemExit (-1))) /\
  status run = 255 /\ stdout run = [].
Proof.
  apply (malformed_hashes_abort "users.json.gz" "hashes.json"
           (Gzip [Sample.users_line]) (PlainHashes [Cases.broken_line])
           (PyStr "a@x.com", Sample.profile) [] [Cases.broken_line]).
  - vm_compute. reflexivity.
  - reflexivity.
  - vm_compute. reflexivity.
Defined.

(** X19: with users in the index, a zip archive that has no member,
    or more than one, ends the run with one line on the standard
    error that names the archive, status 255, no output. *)
Theorem archive_arity_abort users_file_path hashes_file_path users_file members
  item users :
  List.length members <> 1%nat ->
  get_user_info_by_email users_file_path users_file = ([], Ok (item :: users)) ->
  let run := create_auth0_import users_file_path hashes_file_path
               users_file (Zip members) in
  run = ([Stderr ("The zip file with the hash export should contain exactly one file: "
                  ++ hashes_file_path)], Raise (SystemExit (-1))) /\
  status run = 255 /\ stdout run = [].
Proof.
  intros Hn Hu run.
  assert (Hrun : run = ([Stderr ("The zip file with the hash export should contain exactly one file: "
                                 ++ hashes_file_path)], Raise (SystemExit (-1)))).
  { unfold run.
    rewrite create_auth0_import_stages, Hu, get_password_hashes_by_email_stages,
      get_hash_lines_stages.
    destruct members as [|lines [|]]; try reflexivity. simpl in Hn. congruence. }
  rewrite Hrun. auto.
Qed.

Lemma archive_arity_abort_witness :
  let run := create_auth0_import "users.json.gz" "hashes.zip"
               (Gzip [Sample.users_line])
               (Zip [[Sample.hashes_line]; [Sample.hashes_line]]) in
  run = ([Stderr ("The zip file with the hash export should contain exactly one file: "
                  ++ "hashes.zip")], Raise (SystemExit (-1))) /\
  status run = 255 /\ stdout run = [].
Proof.
  apply (archive_arity_abort "users.json.gz" "hashes.zip" (Gzip [Sample.users_line])
           [[Sample.hashes_line]; [Sample.hashes_line]]
           (PyStr "a@x.com", Sample.profile) []).
  - simpl. discriminate.
  - vm_compute. reflexivity.
Defined.

(** X20: when both indexes are built and the reconciliation returns,
    the run prints the output list once on the standard output, then
    on the standard error, if any user is missing from the hashes,
    the heading and the emails of those users in the order of the
    list, and returns with status 0. *)
Theorem successful_run users_file_path hashes_file_path users_file hashes_file
  ev ev' item users hashes output missing :
  get_user_info_by_email users_file_path users_file = (ev, Ok (item :: users)) ->
  get_password_hashes_by_email hashes_file_path hashes_file = (ev', Ok hashes) ->
  reconcile (item :: users) hashes = Ok (output, missing) ->
  let run := create_auth0_import users_file_path hashes_file_path
               users_file hashes_file in
  run = (StdoutJson output :: missing_report missing, Ok tt) /\
  status run = 0 /\ stdout run = [output].
Proof.
  intros Hu Hh Hr run.
  assert (ev = []) as ->.
  { destruct (get_user_info_by_email_shape users_file_path users_file)
      as [[d E]|[E|(e & E & _)]]; congruence. }
  assert (ev' = []) as ->.
  { destruct (get_password_hashes_by_email_shape hashes_file_path hashes_file)
      as [[d E]|[[msg E]|(e & E & _)]]; congruence. }
  assert (Hrun : run = (StdoutJson output :: missing_report missing, Ok tt)).
  { unfold run. rewrite create_auth0_import_stages, Hu, Hh, Hr. reflexivity. }
  rewrite Hrun. split; [reflexivity|]. split; [reflexivity|].
  apply missing_report_quiet.
Qed.

Lemma successful_run_witness :
  let run := create_auth0_import "users.json.gz" "hashes.zip"
               (Gzip [Sample.users_line]) (Zip [[Sample.hashes_line]]) in
  run = (StdoutJson [Sample.produced] :: missing_report [], Ok tt) /\
  status run = 0 /\ stdout run = [[Sample.produced]].
Proof.
  apply (successful_run "users.json.gz" "hashes.zip"
           (Gzip [Sample.users_line]) (Zip [[Sample.hashes_line]])
           [] [] (PyStr "a@x.com", Sample.profile) [] Sample.hashes
           [Sample.produced] []).
  - vm_compute. reflexivity.
  - vm_compute. reflexivity.
  - vm_compute. reflexivity.
Defined.

(** X21: both indexes are well formed: no key occurs twice, and every
    record is filed under the value of its own key field. *)
Theorem indexes_well_formed users_file_path users_file ev users
  hashes_file_path hashes_file ev' hashes :
  get_user_info_by_email users_file_path users_file = (ev, Ok users) ->
  get_password_hashes_by_email hashes_file_path hashes_file = (ev', Ok hashes) ->
  index_wf "Email" users = true /\ index_wf "email" hashes = true.
Proof.
  rewrite get_user_info_by_email_stages, get_password_hashes_by_email_stages.
  intros Hu Hh. split.
  - destruct (verify_valid_ndjson_lines (get_user_lines users_file)) as [[|]|];
      try discriminate.
    injection Hu as _ H. eapply index_lines_wf; [|exact H]. reflexivity.
  - destruct (get_hash_lines hashes_file_path hashes_file) as [ev0 [lines|]];
      [|discriminate].
    destruct (verify_valid_ndjson_lines lines) as [[|]|]; try discriminate.
    injection Hh as _ H. eapply index_lines_wf; [|exact H]. reflexivity.
Qed.

Lemma indexes_well_formed_witness :
  index_wf "Email" Sample.users = true /\ index_wf "email" Sample.hashes = true.
Proof.
  apply (indexes_well_formed "users.json.gz" (Gzip [Sample.users_line]) [] Sample.users
           "hashes.zip" (Zip [[Sample.hashes_line]]) [] Sample.hashes).
  - vm_compute. reflexivity.
  - vm_compute. reflexivity.
Defined.

(* ------------------------------------------------------------------ *)
(** ** The decoder reads no further than the value *)

Module json_append.
Import json number.









































End json_append.

(* ------------------------------------------------------------------ *)
(** ** The validation accepts what the indexers accept *)






(** The first entry of an index keeps its place and its key. *)
Lemma index_lines_head field lines : forall k0 r0 d0 d,
  index_lines field lines ((k0, r0) :: d0) = Ok d -> exists r d', d = (k0, r) :: d'.
Proof.
  induction lines as [|line lines IH]; intros k0 r0 d0 d H.
  - injection H as <-. eauto.
  - rewrite index_lines_step in H.
    destruct (json.loads line) as [[| | | | | |user_json]|e]; try discriminate.
    destruct (get user_json field) as [email|]; [|discriminate].
    destruct (key_of email); [|discriminate].
    cbn [dict_set] in H. destruct (key_eqb k0 email); exact (IH _ _ _ _ H).
Qed.

(** X24: where the database name comes from.  It is the [connection]
    of the first entry of the index of the hashes, and that entry is
    filed under the email of the first line of the file but holds the
    record of the last line with that email. *)
Theorem db_name_source lines d email first rest :
  index_lines "email" lines [] = Ok d ->
  decoded "email" lines ((email, first) :: rest) ->
  get_auth0_db_name d =
  getitem (match find (fun item => key_eqb (fst item) email) (rev rest) with
           | Some item => snd item
           | None => first
           end) "connection".
Proof.
  intros H Hd.
  inversion Hd as [|line ? lines' ? [E G] Hd']; subst. cbn [fst snd] in *.
  rewrite index_lines_step, E, G in H.
  destruct (key_of email) as [x|] eqn:K; [|discriminate].
  cbn [dict_set] in H.
  destruct (index_lines_head _ _ _ _ _ _ H) as (r & d' & ->).
  pose proof (index_lines_lookup _ _ _ _ _ email H Hd') as L.
  unfold index_get in L. cbn [dict_get] in L.
  rewrite key_eqb_refl in L by congruence.
  cbn [get_auth0_db_name].
  destruct (find (fun item => key_eqb (fst item) email) (rev rest)) as [item|];
    injection L as ->; reflexivity.
Qed.

Lemma db_name_source_witness :
  get_auth0_db_name HashCases.index_of_lines =
  getitem (match find (fun item => key_eqb (fst item) (PyStr "a@x.com"))
                   (rev [(PyStr "b@x.com", HashCases.other); (PyStr "a@x.com", HashCases.new)]) with
           | Some item => snd item
           | None => HashCases.old
           end) "connection".
Proof.
  apply (db_name_source HashCases.lines).
  - vm_compute. reflexivity.
  - unfold decoded, HashCases.lines.
    repeat (constructor; [split; [vm_compute; reflexivity|reflexivity]|]).
    constructor.
Defined.
